(** * RFID attendance relay: a shallow embedding of [app.js]

    The server keeps one piece of process state, the array
    [attendanceRecords], and talks to two outside parties: the Firestore
    document store ([db.collection(..)...get()] and [.add(..)]) and the
    system clock ([new Date()]).  Every route handler is embedded as a
    small program tree whose nodes are exactly those interactions; a
    handler is then run against an arbitrary [World] that decides, call by
    call, whether the store answers or throws.

    Objects are finite maps from property names to values, so the order in
    which [JSON.stringify] would print the properties is not modelled;
    [console.log] output is left out as well. *)

From stdpp Require Import gmap strings list fin_maps pretty.

Set Warnings "-register-all".
Open Scope string_scope.
Open Scope list_scope.

(** ** JavaScript values *)

(** The JSON-like values that flow through the handlers.  Numbers that the
    server itself produces are array lengths, so integers suffice; a
    number coming from a request body is only ever tested for truthiness.
    [VDate] is a [Date] object (milliseconds since the epoch) and
    [VServerTimestamp] the sentinel
    [admin.firestore.FieldValue.serverTimestamp()].  An object is the
    finite map of its own properties. *)
Inductive value : Type :=
| VUndefined
| VNull
| VBool (b : bool)
| VNum (n : Z)
| VStr (s : string)
| VDate (ms : Z)
| VServerTimestamp
| VArr (items : list value)
| VObj (fields : gmap string value).

Abbreviation object := (gmap string value).

Module Js.

(** [ToBoolean]: what [!x], [x || y] and [x ? a : b] test. *)
Definition truthy (v : value) : bool :=
  match v with
  | VUndefined | VNull => false
  | VBool b => b
  | VNum n => bool_decide (n ≠ 0%Z)
  | VStr s => bool_decide (s ≠ "")
  | VDate _ | VServerTimestamp | VArr _ | VObj _ => true
  end.

(** [a || b] where [b] has no effect of its own. *)
Definition or (a b : value) : value := if truthy a then a else b.

(** [o.k] on an object; a missing property reads as [undefined]. *)
Definition get (k : string) (o : object) : value :=
  default VUndefined (o !! k).

(** [{ ...o, ...src }]: the properties of [src] are assigned onto those
    of [o]. *)
Definition spread (o src : object) : object := src ∪ o.

(** [v.k] for a value [v]; the handlers only evaluate it on objects. *)
Definition member (v : value) (k : string) : value :=
  match v with
  | VObj o => get k o
  | _ => VUndefined
  end.

End Js.

(** ** The remote document store, as the handlers see it *)

Record doc := Doc { doc_id : string; doc_data : object }.

(** A [QuerySnapshot]: [snapshot.docs]; [snapshot.empty] is [docs = []]. *)
Abbreviation snapshot := (list doc).

Inductive direction := Asc | Desc.

Inductive clause :=
| Where (field op : string) (v : value)
| OrderBy (field : string) (dir : direction)
| Limit (n : nat).

Record query := Query { q_collection : string; q_clauses : list clause }.

(** What an awaited store call does: resolve, or throw. *)
Record error := Err { err_message : string }.

Inductive outcome (A : Type) : Type :=
| Resolved (a : A)
| Rejected (e : error).
Arguments Resolved {A} a.
Arguments Rejected {A} e.

(** ** Handler programs *)

(** The local ledger [attendanceRecords]. *)
Abbreviation ledger := (list value).

(** One node per interaction of a handler with its surroundings.  [Get]
    and [Add] are the awaited store calls; the continuation receives the
    outcome, which is how [try { await ... } catch (error) { ... }] is
    written.  [NowISO] is [new Date().toISOString()], [Midnight] is
    [new Date()] followed by [setHours(0, 0, 0, 0)].  [ReadRecords] reads
    the variable [attendanceRecords] and [WriteRecords] stores into it. *)
Inductive prog (A : Type) : Type :=
| Ret (a : A)
| Get (q : query) (k : outcome snapshot → prog A)
| Add (collection : string) (data : object) (k : outcome string → prog A)
| NowISO (k : string → prog A)
| Midnight (k : Z → prog A)
| ReadRecords (k : ledger → prog A)
| WriteRecords (l : ledger) (k : prog A).
Arguments Ret {A} a.
Arguments Get {A} q k.
Arguments Add {A} collection data k.
Arguments NowISO {A} k.
Arguments Midnight {A} k.
Arguments ReadRecords {A} k.
Arguments WriteRecords {A} l k.

Fixpoint bind {A B : Type} (f : A → prog B) (p : prog A) : prog B :=
  match p with
  | Ret a => f a
  | Get q k => Get q (λ o, bind f (k o))
  | Add c d k => Add c d (λ o, bind f (k o))
  | NowISO k => NowISO (λ s, bind f (k s))
  | Midnight k => Midnight (λ t, bind f (k t))
  | ReadRecords k => ReadRecords (λ l, bind f (k l))
  | WriteRecords l k => WriteRecords l (bind f k)
  end.

#[export] Instance prog_ret : MRet prog := @Ret.
#[export] Instance prog_bind : MBind prog := @bind.

Definition now_iso : prog string := NowISO Ret.
Definition read_records : prog ledger := ReadRecords Ret.
Definition write_records (l : ledger) : prog unit := WriteRecords l (Ret ()).

(** [attendanceRecords.push(record)]. *)
Definition push_record (record : value) : prog unit :=
  l ← read_records; write_records (l ++ [record]).

(** ** Responses *)

(** [res.status(s).json(body)]; [res.json(body)] leaves the status at 200. *)
Record response := Response { status : nat; json : object }.

(** ** Helper functions of [app.js] *)

(** [{ id: doc.id, ...doc.data() }]. *)
Definition with_id (d : doc) : value :=
  VObj (Js.spread {[ "id" := VStr (doc_id d) ]} (doc_data d)).

(** [getStudentDetails(cardId)]: [null] on an empty snapshot and in the
    [catch] branch, otherwise [snapshot.docs[0]] with its id. *)
Definition getStudentDetails (cardId : value) : prog value :=
  Get (Query "students" [Where "cardId" "==" cardId])
    (λ o, match o with
          | Resolved [] => Ret VNull
          | Resolved (studentDoc :: _) => Ret (with_id studentDoc)
          | Rejected _ => Ret VNull
          end).

(** [saveToFirebase(attendanceData)]: the new document's id, or [null] in
    the [catch] branch. *)
Definition saveToFirebase (attendanceData : object) : prog value :=
  Add "attendance"
    (Js.spread attendanceData {[ "createdAt" := VServerTimestamp ]})
    (λ o, match o with
          | Resolved docRef_id => Ret (VStr docRef_id)
          | Rejected _ => Ret VNull
          end).

(** ** Route handlers *)

Definition unknown_student : value :=
  VObj {[ "name" := VStr "Unknown Student"; "class" := VStr "N/A" ]}.

(** The object literal bound to [record] in [POST /attendance], given the
    ledger as it stands when the literal is evaluated. *)
Definition attendance_record (attendanceRecords : ledger)
    (cardId timestamp : value) (recordedAt : string) (student : value)
  : object :=
  {[ "id" := VNum (Z.of_nat (length attendanceRecords) + 1);
     "cardId" := cardId;
     "timestamp" := timestamp;
     "recordedAt" := VStr recordedAt;
     "student" := Js.or student unknown_student ]}.

(** The object literal handed to [saveToFirebase] in [POST /attendance]. *)
Definition attendance_projection (cardId timestamp student : value) : object :=
  {[ "cardId" := cardId;
     "timestamp" := timestamp;
     "studentId" := if Js.truthy student then Js.member student "id"
                    else VNull;
     "studentName" := if Js.truthy student then Js.member student "name"
                      else VStr "Unknown";
     "class" := if Js.truthy student then Js.member student "class"
                else VStr "N/A" ]}.

(** [app.post('/attendance', ...)] on [req.body].  The [console.log] at
    line 128 formats [cardId] with a template literal; that conversion
    succeeds for every primitive [cardId] (see [primitive] below), and it
    is for those bodies that this program is the handler. *)
Definition post_attendance (body : object) : prog response :=
  let cardId := Js.get "cardId" body in
  let time := Js.get "time" body in
  if negb (Js.truthy cardId) then
    Ret (Response 400 {[ "success" := VBool false;
                         "message" := VStr "cardId is required" ]})
  else
    timestamp ← (if Js.truthy time then Ret time
                 else s ← now_iso; Ret (VStr s));
    student ← getStudentDetails cardId;
    attendanceRecords ← read_records;
    recordedAt ← now_iso;
    let record :=
      attendance_record attendanceRecords cardId timestamp recordedAt student in
    push_record (VObj record);;
    firebaseId ← saveToFirebase (attendance_projection cardId timestamp student);
    Ret (Response 201
           {[ "success" := VBool true;
              "message" := VStr "Attendance recorded successfully";
              "data" := VObj (Js.spread record {[ "firebaseId" := firebaseId ]}) ]}).

(** [snapshot.forEach(doc => records.push({ id: doc.id, ...doc.data() }))]. *)
Definition snapshot_records (s : snapshot) : list value := with_id <$> s.

Definition count_of (l : list value) : value := VNum (Z.of_nat (length l)).

(** [app.get('/attendance', ...)]. *)
Definition get_attendance : prog response :=
  Get (Query "attendance" [OrderBy "createdAt" Desc; Limit 100])
    (λ o, match o with
          | Resolved snap =>
              let records := snapshot_records snap in
              Ret (Response 200 {[ "success" := VBool true;
                                   "count" := count_of records;
                                   "data" := VArr records;
                                   "source" := VStr "firebase" ]})
          | Rejected _ =>
              attendanceRecords ← read_records;
              Ret (Response 200 {[ "success" := VBool true;
                                   "count" := count_of attendanceRecords;
                                   "data" := VArr attendanceRecords;
                                   "source" := VStr "memory" ]})
          end).

(** [a.slice(-n)]: the last [n] elements, all of [a] when it is shorter. *)
Definition slice_last {A : Type} (n : nat) (a : list A) : list A :=
  drop (length a - n) a.

(** [app.get('/attendance/latest', ...)]. *)
Definition get_attendance_latest : prog response :=
  Get (Query "attendance" [OrderBy "createdAt" Desc; Limit 10])
    (λ o, match o with
          | Resolved snap =>
              let records := snapshot_records snap in
              Ret (Response 200 {[ "success" := VBool true;
                                   "count" := count_of records;
                                   "data" := VArr records ]})
          | Rejected _ =>
              attendanceRecords ← read_records;
              let latest := reverse (slice_last 10 attendanceRecords) in
              Ret (Response 200 {[ "success" := VBool true;
                                   "count" := count_of latest;
                                   "data" := VArr latest ]})
          end).

(** [app.get('/attendance/today', ...)]. *)
Definition get_attendance_today : prog response :=
  Midnight (λ today,
    Get (Query "attendance" [Where "createdAt" ">=" (VDate today);
                             OrderBy "createdAt" Desc])
      (λ o, match o with
            | Resolved snap =>
                let records := snapshot_records snap in
                Ret (Response 200 {[ "success" := VBool true;
                                     "count" := count_of records;
                                     "data" := VArr records ]})
            | Rejected _ =>
                Ret (Response 500
                       {[ "success" := VBool false;
                          "message" :=
                            VStr "Failed to fetch today's attendance" ]})
            end)).

(** The document written by [POST /students/register]. *)
Definition student_document (cardId name studentClass rollNumber : value)
  : object :=
  {[ "cardId" := cardId;
     "name" := name;
     "class" := Js.or studentClass (VStr "N/A");
     "rollNumber" := Js.or rollNumber (VStr "N/A");
     "registeredAt" := VServerTimestamp ]}.

(** [app.post('/students/register', ...)] on [req.body]. *)
Definition post_students_register (body : object) : prog response :=
  let cardId := Js.get "cardId" body in
  let name := Js.get "name" body in
  let studentClass := Js.get "studentClass" body in
  let rollNumber := Js.get "rollNumber" body in
  if negb (Js.truthy cardId) || negb (Js.truthy name) then
    Ret (Response 400 {[ "success" := VBool false;
                         "message" := VStr "cardId and name are required" ]})
  else
    Add "students" (student_document cardId name studentClass rollNumber)
      (λ o, match o with
            | Resolved docRef_id =>
                Ret (Response 201
                       {[ "success" := VBool true;
                          "message" := VStr "Student registered successfully";
                          "data" := VObj {[ "id" := VStr docRef_id;
                                            "cardId" := cardId;
                                            "name" := name ]} ]})
            | Rejected _ =>
                Ret (Response 500
                       {[ "success" := VBool false;
                          "message" := VStr "Failed to register student" ]})
            end).

(** [app.get('/students', ...)]. *)
Definition get_students : prog response :=
  Get (Query "students" [OrderBy "name" Asc])
    (λ o, match o with
          | Resolved snap =>
              let students := snapshot_records snap in
              Ret (Response 200 {[ "success" := VBool true;
                                   "count" := count_of students;
                                   "data" := VArr students ]})
          | Rejected _ =>
              Ret (Response 500
                     {[ "success" := VBool false;
                        "message" := VStr "Failed to fetch students" ]})
          end).

(** The template literal of [DELETE /attendance/clear]. *)
Definition clear_message (count : nat) : string :=
  "Cleared " +:+ pretty count +:+ " local records (Firebase data unchanged)".

(** [app.delete('/attendance/clear', ...)]. *)
Definition delete_attendance_clear : prog response :=
  attendanceRecords ← read_records;
  let count := length attendanceRecords in
  write_records [];;
  Ret (Response 200 {[ "success" := VBool true;
                       "message" := VStr (clear_message count) ]}).

(** [app.get('/test', ...)]. *)
Definition get_test : prog response :=
  s ← now_iso;
  Ret (Response 200 {[ "success" := VBool true;
                       "message" := VStr "Server is running!";
                       "timestamp" := VStr s ]}).

(** ** The routes *)

Inductive request :=
| POST_attendance (body : object)
| GET_attendance
| GET_attendance_latest
| GET_attendance_today
| POST_students_register (body : object)
| GET_students
| DELETE_attendance_clear
| GET_test.

Definition handler (rq : request) : prog response :=
  match rq with
  | POST_attendance body => post_attendance body
  | GET_attendance => get_attendance
  | GET_attendance_latest => get_attendance_latest
  | GET_attendance_today => get_attendance_today
  | POST_students_register body => post_students_register body
  | GET_students => get_students
  | DELETE_attendance_clear => delete_attendance_clear
  | GET_test => get_test
  end.

(** ** Running a handler *)

(** The surroundings of the process: how the store answers a call and what
    the clock shows.  Nothing is assumed about either; in particular any
    call may throw at any time. *)
Class World (W : Type) : Type := {
  store_get : query → W → outcome snapshot * W;
  store_add : string → object → W → outcome string * W;
  clock_iso : W → string * W;
  clock_midnight : W → Z * W
}.

(** The store calls a run has issued, oldest first, each with its outcome. *)
Inductive event :=
| EvGet (q : query) (o : outcome snapshot)
| EvAdd (collection : string) (data : object) (o : outcome string).

Record result (A W : Type) : Type := Result {
  returned : A;
  records_after : ledger;
  world_after : W;
  trace : list event
}.
Arguments Result {A W} returned records_after world_after trace.
Arguments returned {A W} r.
Arguments records_after {A W} r.
Arguments world_after {A W} r.
Arguments trace {A W} r.

Definition logged {A W : Type} (e : event) (r : result A W) : result A W :=
  Result (returned r) (records_after r) (world_after r) (e :: trace r).

Section Run.

Context {W : Type} `{!World W}.

Fixpoint run {A : Type} (p : prog A) (l : ledger) (w : W) : result A W :=
  match p with
  | Ret a => Result a l w []
  | Get q k =>
      let ow := store_get q w in
      logged (EvGet q ow.1) (run (k ow.1) l ow.2)
  | Add c d k =>
      let ow := store_add c d w in
      logged (EvAdd c d ow.1) (run (k ow.1) l ow.2)
  | NowISO k => let sw := clock_iso w in run (k sw.1) l sw.2
  | Midnight k => let tw := clock_midnight w in run (k tw.1) l tw.2
  | ReadRecords k => run (k l) l w
  | WriteRecords l' k => run k l' w
  end.

(** Requests served one after the other, each to completion: the log
    pairs every request with its response. *)
Fixpoint serve (rqs : list request) (l : ledger) (w : W)
  : result (list (request * response)) W :=
  match rqs with
  | [] => Result [] l w []
  | rq :: rqs' =>
      let r := run (handler rq) l w in
      let r' := serve rqs' (records_after r) (world_after r) in
      Result ((rq, returned r) :: returned r') (records_after r')
             (world_after r') (trace r ++ trace r')
  end.

End Run.

(** ** Vocabulary for the statements *)

(** The [data] member of a response body. *)
Definition response_data (rs : response) : value := Js.get "data" (json rs).

(** The [id] a ledger record carries. *)
Definition localId (record : value) : value := Js.member record "id".

(** The local ids handed out by a served sequence: one per accepted
    ingestion, in order. *)
Fixpoint issued_localIds (log : list (request * response)) : list value :=
  match log with
  | [] => []
  | (POST_attendance _, rs) :: log' =>
      if decide (status rs = 201)
      then localId (response_data rs) :: issued_localIds log'
      else issued_localIds log'
  | _ :: log' => issued_localIds log'
  end.

(** What [getStudentDetails] and [saveToFirebase] hand back, as a function
    of the store's answer. *)
Definition student_of (lookup : outcome snapshot) : value :=
  match lookup with
  | Resolved (studentDoc :: _) => with_id studentDoc
  | Resolved [] | Rejected _ => VNull
  end.

Definition firebaseId_of (saved : outcome string) : value :=
  match saved with
  | Resolved docRef_id => VStr docRef_id
  | Rejected _ => VNull
  end.

(** A program that never touches [attendanceRecords]. *)
Inductive ledger_free {A : Type} : prog A → Prop :=
| lf_Ret a : ledger_free (Ret a)
| lf_Get q k : (∀ o, ledger_free (k o)) → ledger_free (Get q k)
| lf_Add c d k : (∀ o, ledger_free (k o)) → ledger_free (Add c d k)
| lf_NowISO k : (∀ s, ledger_free (k s)) → ledger_free (NowISO k)
| lf_Midnight k : (∀ t, ledger_free (k t)) → ledger_free (Midnight k).

(** A program that never assigns to or pushes onto [attendanceRecords]. *)
Inductive read_only {A : Type} : prog A → Prop :=
| ro_Ret a : read_only (Ret a)
| ro_Get q k : (∀ o, read_only (k o)) → read_only (Get q k)
| ro_Add c d k : (∀ o, read_only (k o)) → read_only (Add c d k)
| ro_NowISO k : (∀ s, read_only (k s)) → read_only (NowISO k)
| ro_Midnight k : (∀ t, read_only (k t)) → read_only (Midnight k)
| ro_ReadRecords k : (∀ l, read_only (k l)) → read_only (ReadRecords k).

(** What is left of a program that awaits a query once the store has
    answered it. *)
Definition after_get {A : Type} (p : prog A) (o : outcome snapshot) : prog A :=
  match p with
  | Get _ k => k o
  | _ => p
  end.


(** ** Overlapping requests *)

(** The handlers are [async] functions: a handler runs without
    interruption up to its next [await], and while it waits for the store
    other handlers run.  The server below holds the handlers that are
    waiting; a schedule says in which order requests arrive and awaited
    calls settle. *)
Record server (W : Type) : Type := Server {
  srv_records : ledger;
  srv_world : W;
  srv_pending : list (prog response);
  srv_sent : list response
}.
Arguments Server {W} srv_records srv_world srv_pending srv_sent.
Arguments srv_records {W} s.
Arguments srv_world {W} s.
Arguments srv_pending {W} s.
Arguments srv_sent {W} s.

Inductive action :=
| Arrive (rq : request)
| Settle (i : nat).

Section Overlap.

Context {W : Type} `{!World W}.

(** One uninterrupted stretch: everything up to the next [await] or the
    final response. *)
Fixpoint advance {A : Type} (p : prog A) (l : ledger) (w : W)
  : prog A * ledger * W :=
  match p with
  | Ret _ | Get _ _ | Add _ _ _ => (p, l, w)
  | NowISO k => let sw := clock_iso w in advance (k sw.1) l sw.2
  | Midnight k => let tw := clock_midnight w in advance (k tw.1) l tw.2
  | ReadRecords k => advance (k l) l w
  | WriteRecords l' k => advance k l' w
  end.

(** After a stretch the handler has either responded or waits again. *)
Definition park (plw : prog response * ledger * W)
    (pending : list (prog response)) (sent : list response) : server W :=
  match plw.1.1 with
  | Ret rs => Server plw.1.2 plw.2 pending (sent ++ [rs])
  | p => Server plw.1.2 plw.2 (pending ++ [p]) sent
  end.

Definition step (s : server W) (a : action) : server W :=
  match a with
  | Arrive rq =>
      park (advance (handler rq) (srv_records s) (srv_world s))
           (srv_pending s) (srv_sent s)
  | Settle i =>
      match srv_pending s !! i with
      | Some (Get q k) =>
          let ow := store_get q (srv_world s) in
          park (advance (k ow.1) (srv_records s) ow.2)
               (delete i (srv_pending s)) (srv_sent s)
      | Some (Add c d k) =>
          let ow := store_add c d (srv_world s) in
          park (advance (k ow.1) (srv_records s) ow.2)
               (delete i (srv_pending s)) (srv_sent s)
      | _ => s
      end
  end.

Definition interleave (schedule : list action) (s : server W) : server W :=
  foldl step s schedule.

End Overlap.



(** ** Vocabulary for the server as a whole *)

(** The values whose conversion to a string cannot throw: everything but
    objects and arrays. *)
Definition primitive (v : value) : bool :=
  match v with
  | VUndefined | VNull | VBool _ | VNum _ | VStr _ => true
  | VDate _ | VServerTimestamp | VArr _ | VObj _ => false
  end.

(** A request whose handler formats no object into a log line. *)
Definition plain (rq : request) : Prop :=
  match rq with
  | POST_attendance body => primitive (Js.get "cardId" body) = true
  | _ => True
  end.

(** The envelope of every route: 200 or 201 go with [success: true], 400
    or 500 with [success: false] and a [message] string. *)
Definition envelope (rs : response) : Prop :=
  ((status rs = 200 ∨ status rs = 201) ∧
   json rs !! "success" = Some (VBool true)) ∨
  ((status rs = 400 ∨ status rs = 500) ∧
   json rs !! "success" = Some (VBool false) ∧
   ∃ m : string, json rs !! "message" = Some (VStr m)).

(** A listing response: either it carries a [data] array together with
    its length as [count], or it carries no [data] at all and is a 500. *)
Definition counted (rs : response) : Prop :=
  match json rs !! "data" with
  | Some (VArr items) =>
      status rs = 200 ∧
      json rs !! "count" = Some (VNum (Z.of_nat (length items)))
  | Some _ => False
  | None => status rs = 500
  end.

(** The property names of the object literal [record] in
    [POST /attendance]. *)
Definition record_keys : gset string :=
  {[ "id"; "cardId"; "timestamp"; "recordedAt"; "student" ]}.

(** A ledger entry as [POST /attendance] builds it: exactly those five
    properties, a truthy [cardId] and a truthy [student]. *)
Definition shaped (record : value) : Prop :=
  ∃ fields : object,
    record = VObj fields ∧
    dom fields = record_keys ∧
    Js.truthy (Js.get "cardId" fields) = true ∧
    Js.truthy (Js.get "student" fields) = true.

(** A document meets an equality filter when it holds the value under
    the field; other clauses put no condition on a single document. *)
Definition satisfies (data : object) (c : clause) : Prop :=
  match c with
  | Where field op v =>
      if decide (op = "==") then data !! field = Some v else True
  | OrderBy _ _ | Limit _ => True
  end.

(** [p], started in a stretch where the ledger is [l], only ever stores
    ledgers that satisfy [P] and only ever answers with a [Q]; across an
    [await] the ledger may have become any other ledger satisfying [P]. *)
Fixpoint upholds {A : Type} (P : ledger → Prop) (Q : A → Prop)
    (p : prog A) (l : ledger) : Prop :=
  match p with
  | Ret a => Q a
  | Get _ k => ∀ o l', P l' → upholds P Q (k o) l'
  | Add _ _ k => ∀ o l', P l' → upholds P Q (k o) l'
  | NowISO k => ∀ s, upholds P Q (k s) l
  | Midnight k => ∀ t, upholds P Q (k t) l
  | ReadRecords k => upholds P Q (k l) l
  | WriteRecords l' k => P l' ∧ upholds P Q k l'
  end.

(** A server whose ledger satisfies [P], whose responses so far satisfy
    [Q], and whose waiting handlers will keep both so. *)
Definition steady {W : Type} (P : ledger → Prop) (Q : response → Prop)
    (s : server W) : Prop :=
  P (srv_records s) ∧
  Forall Q (srv_sent s) ∧
  Forall (λ p, ∀ l, P l → upholds P Q p l) (srv_pending s).

(** ** Two concrete worlds *)

(** A store that is unreachable: every call throws. *)
Record outage := Outage { outage_now : string; outage_midnight : Z }.

#[export] Instance outage_world : World outage := {
  store_get _ w := (Rejected (Err "UNAVAILABLE"), w);
  store_add _ _ w := (Rejected (Err "UNAVAILABLE"), w);
  clock_iso w := (outage_now w, w);
  clock_midnight w := (outage_midnight w, w)
}.

(** A small working store: both collections are kept as lists, the
    [attendance] one newest first; equality filters compare strings, a
    [Limit] truncates, and [add] names the new document after a counter. *)
Record fixture := Fixture {
  fx_students : snapshot;
  fx_attendance : snapshot;
  fx_next : nat;
  fx_now : string;
  fx_midnight : Z
}.

Definition str_eqb (a b : value) : bool :=
  match a, b with
  | VStr x, VStr y => bool_decide (x = y)
  | _, _ => false
  end.

Definition apply_clause (c : clause) (s : snapshot) : snapshot :=
  match c with
  | Where field op v =>
      if decide (op = "==")
      then filter (λ d, str_eqb (Js.get field (doc_data d)) v = true) s
      else s
  | OrderBy _ _ => s
  | Limit n => take n s
  end.

Definition fixture_get (q : query) (w : fixture) : outcome snapshot * fixture :=
  let source := if decide (q_collection q = "students") then fx_students w
                else fx_attendance w in
  (Resolved (foldl (λ s c, apply_clause c s) source (q_clauses q)), w).

Definition fixture_add (c : string) (d : object) (w : fixture)
  : outcome string * fixture :=
  let id := "doc" +:+ pretty (fx_next w) in
  let stored := Doc id d in
  (Resolved id,
   if decide (c = "students")
   then Fixture (fx_students w ++ [stored]) (fx_attendance w)
                (S (fx_next w)) (fx_now w) (fx_midnight w)
   else Fixture (fx_students w) (stored :: fx_attendance w)
                (S (fx_next w)) (fx_now w) (fx_midnight w)).

#[export] Instance fixture_world : World fixture := {
  store_get := fixture_get;
  store_add := fixture_add;
  clock_iso w := (fx_now w, w);
  clock_midnight w := (fx_midnight w, w)
}.

Definition alice : doc :=
  Doc "stu1" {[ "cardId" := VStr "CARD1"; "name" := VStr "Alice";
                "class" := VStr "10A"; "rollNumber" := VStr "7" ]}.

Definition school : fixture :=
  Fixture [alice] [] 1 "2024-01-16T10:30:00.000Z" 1705363200000.

Definition blackout : outage :=
  Outage "2024-01-16T10:30:00.000Z" 1705363200000.

(** * Properties *)

(** ** Sanity checks on the two worlds *)

Example ingest_known_card :
  returned (run (post_attendance {[ "cardId" := VStr "CARD1" ]}) [] school)
  = Response 201
      {[ "success" := VBool true;
         "message" := VStr "Attendance recorded successfully";
         "data" := VObj {[ "id" := VNum 1;
                           "cardId" := VStr "CARD1";
                           "timestamp" := VStr "2024-01-16T10:30:00.000Z";
                           "recordedAt" := VStr "2024-01-16T10:30:00.000Z";
                           "student" := VObj {[ "id" := VStr "stu1";
                                                "cardId" := VStr "CARD1";
                                                "name" := VStr "Alice";
                                                "class" := VStr "10A";
                                                "rollNumber" := VStr "7" ]};
                           "firebaseId" := VStr "doc1" ]} ]}.
Proof. vm_compute. reflexivity. Qed.

Example ingest_unknown_card :
  response_data
    (returned (run (post_attendance {[ "cardId" := VStr "CARDX" ]}) [] school))
  = VObj {[ "id" := VNum 1;
            "cardId" := VStr "CARDX";
            "timestamp" := VStr "2024-01-16T10:30:00.000Z";
            "recordedAt" := VStr "2024-01-16T10:30:00.000Z";
            "student" := unknown_student;
            "firebaseId" := VStr "doc1" ]}.
Proof. vm_compute. reflexivity. Qed.

Example ingest_during_outage :
  response_data
    (returned (run (post_attendance {[ "cardId" := VStr "CARD1" ]}) [] blackout))
  = VObj {[ "id" := VNum 1;
            "cardId" := VStr "CARD1";
            "timestamp" := VStr "2024-01-16T10:30:00.000Z";
            "recordedAt" := VStr "2024-01-16T10:30:00.000Z";
            "student" := unknown_student;
            "firebaseId" := VNull ]}.
Proof. vm_compute. reflexivity. Qed.

(** ** Objects *)

Lemma truthy_nonempty_string (s : string) :
  s ≠ "" → Js.truthy (VStr s) = true.
Proof. intros Hs. simpl. by rewrite bool_decide_eq_true. Qed.

Lemma string_cardId_truthy (body : object) (cardId : string) :
  Js.get "cardId" body = VStr cardId →
  cardId ≠ "" →
  Js.truthy (Js.get "cardId" body) = true.
Proof. intros ->. apply truthy_nonempty_string. Qed.

(** Spreading a document's data over [{ id }] leaves every other member
    as the data has it. *)
Lemma with_id_member (d : doc) (k : string) :
  k ≠ "id" → Js.member (with_id d) k = Js.get k (doc_data d).
Proof.
  intros Hk. unfold with_id, Js.member, Js.get, Js.spread.
  rewrite lookup_union, lookup_singleton_ne by done.
  by rewrite (right_id None _).
Qed.

Lemma with_id_truthy (d : doc) : Js.truthy (with_id d) = true.
Proof. reflexivity. Qed.

Lemma record_localId (l : ledger) (cardId timestamp : value)
    (recordedAt : string) (student : value) :
  localId (VObj (attendance_record l cardId timestamp recordedAt student))
  = VNum (Z.of_nat (length l) + 1).
Proof. reflexivity. Qed.

Lemma record_student (l : ledger) (cardId timestamp : value)
    (recordedAt : string) (student : value) :
  Js.member (VObj (attendance_record l cardId timestamp recordedAt student))
            "student"
  = Js.or student unknown_student.
Proof. reflexivity. Qed.

(** ** Running programs *)

Ltac run_step :=
  cbn [run bind mbind prog_bind mret prog_ret getStudentDetails saveToFirebase
       now_iso read_records write_records push_record logged
       returned records_after world_after trace fst snd].

Section RunFacts.

Context {W : Type} `{!World W}.

Lemma run_bind {A B : Type} (f : A → prog B) (p : prog A) (l : ledger) (w : W) :
  run (p ≫= f) l w =
  let r := run p l w in
  let r' := run (f (returned r)) (records_after r) (world_after r) in
  Result (returned r') (records_after r') (world_after r')
         (trace r ++ trace r').
Proof.
  revert l w. induction p as [a|q k IH|c d k IH|k IH|k IH|k IH|l' k IH];
    intros l w; cbn -[store_get store_add clock_iso clock_midnight].
  - by destruct (run (f a) l w).
  - unfold mbind, prog_bind in IH. by rewrite IH.
  - unfold mbind, prog_bind in IH. by rewrite IH.
  - apply IH.
  - apply IH.
  - apply IH.
  - apply IH.
Qed.

Lemma post_attendance_rejected (body : object) :
  Js.truthy (Js.get "cardId" body) = false →
  post_attendance body
  = Ret (Response 400 {[ "success" := VBool false;
                         "message" := VStr "cardId is required" ]}).
Proof. intros Hc. unfold post_attendance. by rewrite Hc. Qed.

(** The whole of an accepted ingestion: one lookup, one push, one write,
    and a 201 whatever the two store calls did. *)
Lemma post_attendance_accepted (body : object) (l : ledger) (w : W) :
  Js.truthy (Js.get "cardId" body) = true →
  ∃ (timestamp : value) (recordedAt : string) (lookup : outcome snapshot)
    (saved : outcome string) (w' : W),
    let cardId := Js.get "cardId" body in
    let student := student_of lookup in
    let record := attendance_record l cardId timestamp recordedAt student in
    run (post_attendance body) l w =
    Result
      (Response 201
         {[ "success" := VBool true;
            "message" := VStr "Attendance recorded successfully";
            "data" := VObj (Js.spread record
                              {[ "firebaseId" := firebaseId_of saved ]}) ]})
      (l ++ [VObj record]) w'
      [EvGet (Query "students" [Where "cardId" "==" cardId]) lookup;
       EvAdd "attendance"
         (Js.spread (attendance_projection cardId timestamp student)
                    {[ "createdAt" := VServerTimestamp ]}) saved].
Proof.
  intros Hc. unfold post_attendance. rewrite Hc. cbn [negb].
  destruct (Js.truthy (Js.get "time" body)); run_step.
  all: destruct (store_get _ _) as [lookup w1]; run_step.
  all: destruct lookup as [[|d ds]|e]; run_step.
  all: destruct (store_add _ _ _) as [saved w2]; run_step.
  all: destruct saved as [id|e']; run_step.
  all: match goal with
       | |- ∃ _ _ _ _ _,
           logged (EvGet _ ?lk)
             (logged (EvAdd _ _ ?sv)
                (Result _ (_ ++ [VObj (attendance_record _ _ ?ts ?ra _)])
                        ?w' _)) = _ =>
           by exists ts, ra, lk, sv, w'
       end.
Qed.

End RunFacts.

(** ** Ingestion: [POST /attendance] *)

Section Ingestion.

Context {W : Type} `{!World W}.

(** C1.  An ingestion call whose [cardId] is a non-empty string appends
    exactly one record to the ledger and answers 201 with
    [success: true], in every world: whether the write to the
    [attendance] collection resolves or throws makes no difference. *)
Theorem ingestion_appends_one_record_and_succeeds
    (body : object) (cardId : string) (l : ledger) (w : W) :
  Js.get "cardId" body = VStr cardId →
  cardId ≠ "" →
  let r := run (post_attendance body) l w in
  (∃ record, records_after r = l ++ [record]) ∧
  length (records_after r) = S (length l) ∧
  status (returned r) = 201 ∧
  Js.get "success" (json (returned r)) = VBool true ∧
  (∃ data saved, last (trace r) = Some (EvAdd "attendance" data saved)).
Proof.
  intros Hc Hne.
  destruct (post_attendance_accepted body l w)
    as (ts & ra & lookup & saved & w' & Hrun).
  { rewrite Hc. by apply truthy_nonempty_string. }
  cbv zeta in Hrun |- *. rewrite Hrun. cbn [records_after returned trace status json].
  split_and!.
  - by eexists.
  - rewrite length_app. cbn. lia.
  - done.
  - done.
  - by eexists _, _.
Qed.

(** C2, as the code has it.  The record returned by the ingestion of a
    non-empty string [cardId] always has a [firebaseId] member: its value
    is [null] when the write to [attendance] threw, and the id the store
    assigned when the write resolved. *)
Theorem firebaseId_reflects_remote_write
    (body : object) (cardId : string) (l : ledger) (w : W) :
  Js.get "cardId" body = VStr cardId →
  cardId ≠ "" →
  let r := run (post_attendance body) l w in
  ∃ (fields data : object) (saved : outcome string),
    status (returned r) = 201 ∧
    response_data (returned r) = VObj fields ∧
    last (trace r) = Some (EvAdd "attendance" data saved) ∧
    match saved with
    | Rejected _ => fields !! "firebaseId" = Some VNull
    | Resolved docRef_id => fields !! "firebaseId" = Some (VStr docRef_id)
    end.
Proof.
  intros Hs Hne.
  pose proof (string_cardId_truthy body cardId Hs Hne) as Hc.
  destruct (post_attendance_accepted body l w Hc)
    as (ts & ra & lookup & saved & w' & Hrun).
  cbv zeta in Hrun |- *. rewrite Hrun.
  cbn [records_after returned trace status json].
  eexists _, _, saved. split_and!; [done|reflexivity|done|].
  by destruct saved.
Qed.

(** C3.  When [cardId] is missing from the body, or is the empty string,
    the handler is a bare [return res.status(400)...]: the ledger is
    left as it was and no store call of any kind is issued. *)
Theorem ingestion_without_cardId_is_rejected
    (body : object) (l : ledger) (w : W) :
  body !! "cardId" = None ∨ body !! "cardId" = Some (VStr "") →
  let r := run (post_attendance body) l w in
  post_attendance body = Ret (returned r) ∧
  status (returned r) = 400 ∧
  Js.get "success" (json (returned r)) = VBool false ∧
  Js.get "message" (json (returned r)) = VStr "cardId is required" ∧
  records_after r = l ∧
  length (records_after r) = length l ∧
  trace r = [] ∧
  world_after r = w.
Proof.
  intros Hbody.
  assert (Js.truthy (Js.get "cardId" body) = false) as Hc.
  { unfold Js.get. by destruct Hbody as [-> | ->]. }
  cbv zeta. rewrite (post_attendance_rejected body Hc). by cbn.
Qed.

End Ingestion.

Lemma ingestion_appends_one_record_and_succeeds_witness :
  Js.get "cardId" {[ "cardId" := VStr "CARD1" ]} = VStr "CARD1" ∧
  "CARD1" ≠ "" ∧
  let r := run (post_attendance {[ "cardId" := VStr "CARD1" ]}) [] blackout in
  (∃ record, records_after r = [] ++ [record]) ∧
  length (records_after r) = 1 ∧
  status (returned r) = 201 ∧
  Js.get "success" (json (returned r)) = VBool true ∧
  (∃ data saved, last (trace r) = Some (EvAdd "attendance" data saved)).
Proof.
  split; [reflexivity|]. split; [discriminate|].
  apply (ingestion_appends_one_record_and_succeeds
           {[ "cardId" := VStr "CARD1" ]} "CARD1" [] blackout);
    [reflexivity | discriminate].
Defined.

(** C2, as the spec words it, fails: with the store unreachable the write
    throws, and the record in the 201 response still has the member
    [firebaseId]; its value is [null]. *)
Lemma firebaseId_present_after_failed_write :
  let r := run (post_attendance {[ "cardId" := VStr "CARD1" ]}) [] blackout in
  status (returned r) = 201 ∧
  (∃ data e, last (trace r) = Some (EvAdd "attendance" data (Rejected e))) ∧
  ∃ fields : object,
    response_data (returned r) = VObj fields ∧
    fields !! "firebaseId" = Some VNull ∧
    fields !! "firebaseId" ≠ None.
Proof.
  cbv zeta. split; [reflexivity|]. split.
  - by eexists _, _.
  - eexists. split; [reflexivity|]. by vm_compute.
Qed.

Lemma firebaseId_reflects_remote_write_witness :
  Js.get "cardId" {[ "cardId" := VStr "CARD1" ]} = VStr "CARD1" ∧
  "CARD1" ≠ "" ∧
  let r := run (post_attendance {[ "cardId" := VStr "CARD1" ]}) [] school in
  ∃ (fields data : object) (saved : outcome string),
    status (returned r) = 201 ∧
    response_data (returned r) = VObj fields ∧
    last (trace r) = Some (EvAdd "attendance" data saved) ∧
    match saved with
    | Rejected _ => fields !! "firebaseId" = Some VNull
    | Resolved docRef_id => fields !! "firebaseId" = Some (VStr docRef_id)
    end.
Proof.
  split; [reflexivity|]. split; [discriminate|].
  apply (firebaseId_reflects_remote_write
           {[ "cardId" := VStr "CARD1" ]} "CARD1" [] school);
    [reflexivity | discriminate].
Defined.

Lemma ingestion_without_cardId_is_rejected_witness :
  ((∅ : object) !! "cardId" = None ∨
   (∅ : object) !! "cardId" = Some (VStr "")) ∧
  let r := run (post_attendance ∅) [VNull] school in
  post_attendance ∅ = Ret (returned r) ∧
  status (returned r) = 400 ∧
  Js.get "success" (json (returned r)) = VBool false ∧
  Js.get "message" (json (returned r)) = VStr "cardId is required" ∧
  records_after r = [VNull] ∧
  length (records_after r) = 1 ∧
  trace r = [] ∧
  world_after r = school.
Proof.
  split; [left; reflexivity|].
  apply (ingestion_without_cardId_is_rejected ∅ [VNull] school).
  left. reflexivity.
Defined.

(** ** The student embedded in a record *)

Section Resolution.

Context {W : Type} `{!World W}.

(** C5.  In the ingestion of a non-empty string [cardId] the record pushed
    onto the ledger (and returned) embeds [snapshot.docs[0]] of the
    [students] lookup, so its [name] and [class] are those of the first
    match; when the lookup resolves empty or throws, the embedded student
    is exactly [{ name: 'Unknown Student', class: 'N/A' }].  Whatever
    code awaits [getStudentDetails] continues in the same way after an
    empty snapshot and after a fault. *)
Theorem student_embedded_in_record
    (body : object) (cardId : string) (l : ledger) (w : W) :
  Js.get "cardId" body = VStr cardId →
  cardId ≠ "" →
  let r := run (post_attendance body) l w in
  ∃ (record : value) (lookup : outcome snapshot),
    records_after r = l ++ [record] ∧
    Js.member (response_data (returned r)) "student"
      = Js.member record "student" ∧
    head (trace r)
      = Some (EvGet (Query "students" [Where "cardId" "==" (VStr cardId)])
                    lookup) ∧
    match lookup with
    | Resolved (first :: _) =>
        Js.member record "student"
          = VObj (doc_data first ∪ {[ "id" := VStr (doc_id first) ]}) ∧
        Js.member (Js.member record "student") "name"
          = Js.get "name" (doc_data first) ∧
        Js.member (Js.member record "student") "class"
          = Js.get "class" (doc_data first)
    | Resolved [] | Rejected _ =>
        Js.member record "student"
          = VObj {[ "name" := VStr "Unknown Student"; "class" := VStr "N/A" ]}
    end ∧
    ∀ (B : Type) (caller : value → prog B) (e : error),
      after_get (getStudentDetails (VStr cardId) ≫= caller) (Resolved [])
      = after_get (getStudentDetails (VStr cardId) ≫= caller) (Rejected e).
Proof.
  intros Hs Hne.
  pose proof (string_cardId_truthy body cardId Hs Hne) as Hc.
  destruct (post_attendance_accepted body l w Hc)
    as (ts & ra & lookup & saved & w' & Hrun).
  cbv zeta in Hrun |- *. rewrite Hrun, Hs.
  cbn [records_after returned trace status json head].
  eexists _, lookup. split_and!; [done|reflexivity|done| |done].
  rewrite record_student.
  destruct lookup as [[|first rest]|e]; cbn [student_of].
  - reflexivity.
  - unfold Js.or. rewrite with_id_truthy.
    by rewrite !with_id_member.
  - reflexivity.
Qed.

End Resolution.

Lemma student_embedded_in_record_witness :
  Js.get "cardId" {[ "cardId" := VStr "CARD1" ]} = VStr "CARD1" ∧
  "CARD1" ≠ "" ∧
  let r := run (post_attendance {[ "cardId" := VStr "CARD1" ]}) [] school in
  ∃ (record : value) (lookup : outcome snapshot),
    records_after r = [] ++ [record] ∧
    Js.member (response_data (returned r)) "student"
      = Js.member record "student" ∧
    head (trace r)
      = Some (EvGet (Query "students" [Where "cardId" "==" (VStr "CARD1")])
                    lookup) ∧
    match lookup with
    | Resolved (first :: _) =>
        Js.member record "student"
          = VObj (doc_data first ∪ {[ "id" := VStr (doc_id first) ]}) ∧
        Js.member (Js.member record "student") "name"
          = Js.get "name" (doc_data first) ∧
        Js.member (Js.member record "student") "class"
          = Js.get "class" (doc_data first)
    | Resolved [] | Rejected _ =>
        Js.member record "student"
          = VObj {[ "name" := VStr "Unknown Student"; "class" := VStr "N/A" ]}
    end ∧
    ∀ (B : Type) (caller : value → prog B) (e : error),
      after_get (getStudentDetails (VStr "CARD1") ≫= caller) (Resolved [])
      = after_get (getStudentDetails (VStr "CARD1") ≫= caller) (Rejected e).
Proof.
  split; [reflexivity|]. split; [discriminate|].
  apply (student_embedded_in_record
           {[ "cardId" := VStr "CARD1" ]} "CARD1" [] school);
    [reflexivity | discriminate].
Defined.

Example known_card_embeds_alice :
  let r := run (post_attendance {[ "cardId" := VStr "CARD1" ]}) [] school in
  Js.member (Js.member (response_data (returned r)) "student") "name"
    = VStr "Alice" ∧
  Js.member (Js.member (response_data (returned r)) "student") "class"
    = VStr "10A".
Proof. by vm_compute. Qed.

(** ** Local ids *)









(** ** Local ids when requests overlap *)

Section OverlapFacts.

Context {W : Type} `{!World W}.

Lemma advance_waits {A : Type} (p : prog A) (l : ledger) (w : W) :
  match (advance p l w).1.1 with
  | Ret _ | Get _ _ | Add _ _ _ => True
  | _ => False
  end.
Proof.
  revert l w. induction p as [a|q k IH|c d k IH|k IH|k IH|k IH|l' k IH];
    intros l w; cbn [advance fst]; [done|done|done|apply IH..].
Qed.






End OverlapFacts.

Section Sequences.

Context {W : Type} `{!World W}.

(** What each route does to the ledger. *)
Lemma handler_ledger (rq : request) (l : ledger) (w : W) :
  let r := run (handler rq) l w in
  match rq with
  | DELETE_attendance_clear => records_after r = []
  | POST_attendance body =>
      if Js.truthy (Js.get "cardId" body) then
        status (returned r) = 201 ∧
        ∃ record, records_after r = l ++ [record] ∧
                  localId record = VNum (Z.of_nat (length l) + 1) ∧
                  localId (response_data (returned r))
                    = VNum (Z.of_nat (length l) + 1)
      else status (returned r) = 400 ∧ records_after r = l
  | _ => records_after r = l
  end.
Proof.
  destruct rq as [body| | | |body| | |]; cbn [handler]; cbv zeta.
  - destruct (Js.truthy (Js.get "cardId" body)) eqn:Hc.
    + destruct (post_attendance_accepted body l w Hc)
        as (ts & ra & lookup & saved & w' & Hrun).
      cbv zeta in Hrun. rewrite Hrun. cbn [returned records_after status].
      split; [done|]. eexists. split; [done|]. split; [apply record_localId|].
      reflexivity.
    + by rewrite (post_attendance_rejected body Hc).
  - unfold get_attendance. run_step.
    by destruct (store_get _ _) as [[snap|e] w'].
  - unfold get_attendance_latest. run_step.
    by destruct (store_get _ _) as [[snap|e] w'].
  - unfold get_attendance_today. run_step.
    by destruct (store_get _ _) as [[snap|e] w'].
  - unfold post_students_register.
    destruct (negb _ || negb _); run_step; [done|].
    by destruct (store_add _ _ _) as [[id|e] w'].
  - unfold get_students. run_step.
    by destruct (store_get _ _) as [[snap|e] w'].
  - reflexivity.
  - reflexivity.
Qed.





End Sequences.


(** Two ingestions whose lookups and writes overlap. *)
Example overlapping_ingestions :
  let s := interleave
             [Arrive (POST_attendance {[ "cardId" := VStr "CARD1" ]});
              Arrive (POST_attendance {[ "cardId" := VStr "CARD2" ]});
              Settle 1; Settle 0; Settle 0; Settle 0]
             (Server [] school [] []) in
  localId <$> srv_records s = [VNum 1; VNum 2] ∧
  (λ record, Js.member record "cardId") <$> srv_records s
    = [VStr "CARD2"; VStr "CARD1"] ∧
  srv_pending s = [] ∧
  status <$> srv_sent s = [201; 201].
Proof. by vm_compute. Qed.


(** ** Reads: [GET /attendance], [/attendance/latest], [/attendance/today] *)

Lemma slice_last_length {A : Type} (n : nat) (a : list A) :
  length (slice_last n a) = n `min` length a.
Proof. unfold slice_last. rewrite length_drop. lia. Qed.

Lemma slice_last_suffix {A : Type} (n : nat) (a : list A) :
  a = take (length a - n) a ++ slice_last n a.
Proof. unfold slice_last. by rewrite take_drop. Qed.

Section Reads.

Context {W : Type} `{!World W}.

(** A program that never touches the ledger runs the same whatever the
    ledger holds, and leaves it alone. *)
Lemma ledger_free_run {A : Type} (p : prog A) :
  ledger_free p →
  ∀ (l l' : ledger) (w : W),
    records_after (run p l w) = l ∧
    returned (run p l' w) = returned (run p l w) ∧
    trace (run p l' w) = trace (run p l w) ∧
    world_after (run p l' w) = world_after (run p l w).
Proof.
  induction 1 as [a|q k _ IH|c d k _ IH|k _ IH|k _ IH]; intros l l' w;
    run_step; [done|..].
  - destruct (IH (store_get q w).1 l l' (store_get q w).2) as (?&?&?&?).
    split_and!; [done|done| |done]. by f_equal.
  - destruct (IH (store_add c d w).1 l l' (store_add c d w).2) as (?&?&?&?).
    split_and!; [done|done| |done]. by f_equal.
  - apply IH.
  - apply IH.
Qed.

Lemma read_only_run {A : Type} (p : prog A) :
  read_only p → ∀ (l : ledger) (w : W), records_after (run p l w) = l.
Proof.
  induction 1 as [a|q k _ IH|c d k _ IH|k _ IH|k _ IH|k _ IH]; intros l w;
    run_step; [done|apply IH..].
Qed.

Lemma get_attendance_read_only : read_only get_attendance.
Proof.
  constructor. intros [snap|e]; [constructor|].
  constructor. intros l. constructor.
Qed.

Lemma get_attendance_latest_read_only : read_only get_attendance_latest.
Proof.
  constructor. intros [snap|e]; [constructor|].
  constructor. intros l. constructor.
Qed.

Lemma get_attendance_today_ledger_free : ledger_free get_attendance_today.
Proof.
  constructor. intros today. constructor. intros [snap|e]; constructor.
Qed.

Lemma get_attendance_today_read_only : read_only get_attendance_today.
Proof.
  constructor. intros today. constructor. intros [snap|e]; constructor.
Qed.

(** C6.  [GET /attendance] and [GET /attendance/latest] issue one query
    each.  When it throws, the first answers 200 with the whole ledger,
    in ledger order, tagged ['memory']; the second answers 200 with the
    last ten ledger entries (all of them if there are fewer), newest
    first.  When it resolves they answer 200 from the snapshot.  Either
    way the response is a success. *)
Theorem reads_fall_back_on_ledger (l : ledger) (w : W) :
  let all := run get_attendance l w in
  let latest := run get_attendance_latest l w in
  (∃ o : outcome snapshot,
     trace all = [EvGet (Query "attendance"
                           [OrderBy "createdAt" Desc; Limit 100]) o] ∧
     match o with
     | Rejected _ =>
         returned all
         = Response 200 {[ "success" := VBool true;
                           "count" := VNum (Z.of_nat (length l));
                           "data" := VArr l;
                           "source" := VStr "memory" ]}
     | Resolved snap =>
         returned all
         = Response 200 {[ "success" := VBool true;
                           "count" := count_of (snapshot_records snap);
                           "data" := VArr (snapshot_records snap);
                           "source" := VStr "firebase" ]}
     end) ∧
  (∃ o : outcome snapshot,
     trace latest = [EvGet (Query "attendance"
                              [OrderBy "createdAt" Desc; Limit 10]) o] ∧
     match o with
     | Rejected _ =>
         ∃ older newest : ledger,
           l = older ++ newest ∧
           length newest = 10 `min` length l ∧
           (length (reverse newest) ≤ 10)%nat ∧
           returned latest
           = Response 200 {[ "success" := VBool true;
                             "count" := VNum (Z.of_nat (length (reverse newest)));
                             "data" := VArr (reverse newest) ]}
     | Resolved snap =>
         returned latest
         = Response 200 {[ "success" := VBool true;
                           "count" := count_of (snapshot_records snap);
                           "data" := VArr (snapshot_records snap) ]}
     end) ∧
  status (returned all) = 200 ∧
  Js.get "success" (json (returned all)) = VBool true ∧
  status (returned latest) = 200 ∧
  Js.get "success" (json (returned latest)) = VBool true.
Proof.
  cbv zeta. unfold get_attendance, get_attendance_latest. run_step.
  destruct (store_get (Query "attendance" [_; Limit 100]) w) as [o1 w1].
  destruct (store_get (Query "attendance" [_; Limit 10]) w) as [o2 w2].
  run_step. split_and!.
  - exists o1. by destruct o1.
  - exists o2. destruct o2 as [snap|e]; run_step; [done|].
    split; [done|].
    exists (take (length l - 10) l), (slice_last 10 l).
    split_and!; [apply slice_last_suffix|apply slice_last_length| |done].
    rewrite length_reverse, slice_last_length. lia.
  - by destruct o1.
  - by destruct o1.
  - by destruct o2.
  - by destruct o2.
Qed.

(** C7.  [GET /attendance/today] has no fallback: its program contains
    no access to [attendanceRecords] at all, so its response does not
    depend on the ledger, and when its query throws it answers 500 with
    [success: false]. *)
Theorem today_read_surfaces_fault (l : ledger) (w : W) :
  let r := run get_attendance_today l w in
  ledger_free get_attendance_today ∧
  (∀ l' : ledger, returned (run get_attendance_today l' w) = returned r) ∧
  ∃ (today : Z) (o : outcome snapshot),
    trace r = [EvGet (Query "attendance"
                        [Where "createdAt" ">=" (VDate today);
                         OrderBy "createdAt" Desc]) o] ∧
    match o with
    | Rejected _ =>
        status (returned r) = 500 ∧
        Js.get "success" (json (returned r)) = VBool false ∧
        returned r
        = Response 500
            {[ "success" := VBool false;
               "message" := VStr "Failed to fetch today's attendance" ]}
    | Resolved snap =>
        returned r
        = Response 200 {[ "success" := VBool true;
                          "count" := count_of (snapshot_records snap);
                          "data" := VArr (snapshot_records snap) ]}
    end.
Proof.
  cbv zeta. split; [apply get_attendance_today_ledger_free|]. split.
  { intros l'.
    by destruct (ledger_free_run get_attendance_today
                   get_attendance_today_ledger_free l l' w) as (_ & ? & _). }
  unfold get_attendance_today. run_step.
  destruct (clock_midnight w) as [today w0]. run_step.
  destruct (store_get _ w0) as [o w1]. run_step.
  exists today, o. by destruct o.
Qed.

(** C10.  None of the three reads assigns to the ledger: run from any
    ledger in any world, each leaves the ledger exactly as it found
    it. *)
Theorem reads_leave_ledger_unchanged (l : ledger) (w : W) :
  records_after (run get_attendance l w) = l ∧
  records_after (run get_attendance_latest l w) = l ∧
  records_after (run get_attendance_today l w) = l ∧
  read_only get_attendance ∧
  read_only get_attendance_latest ∧
  read_only get_attendance_today.
Proof.
  split_and!;
    auto using read_only_run, get_attendance_read_only,
      get_attendance_latest_read_only, get_attendance_today_read_only.
Qed.

End Reads.

Example latest_during_outage :
  Js.get "data"
    (json (returned
             (run get_attendance_latest
                (VNum <$> [1; 2; 3; 4; 5; 6; 7; 8; 9; 10; 11; 12]%Z) blackout)))
  = VArr (VNum <$> [12; 11; 10; 9; 8; 7; 6; 5; 4; 3]%Z).
Proof. by vm_compute. Qed.

Example today_during_outage :
  returned (run get_attendance_today [VNum 1] blackout)
  = Response 500 {[ "success" := VBool false;
                    "message" := VStr "Failed to fetch today's attendance" ]}.
Proof. by vm_compute. Qed.

(** ** Clearing the ledger: [DELETE /attendance/clear] *)

Lemma list_ascii_of_string_app (s t : string) :
  String.list_ascii_of_string (s +:+ t)
  = String.list_ascii_of_string s ++ String.list_ascii_of_string t.
Proof. induction s as [|a s IH]; [done|]. cbn. by rewrite <-IH. Qed.

Lemma string_app_inv_tail (s1 s2 t : string) : s1 +:+ t = s2 +:+ t → s1 = s2.
Proof.
  intros Heq. apply (f_equal String.list_ascii_of_string) in Heq.
  rewrite !list_ascii_of_string_app in Heq. apply app_inv_tail in Heq.
  rewrite <-(String.string_of_list_ascii_of_string s1),
          <-(String.string_of_list_ascii_of_string s2).
  by rewrite Heq.
Qed.

(** The message names the count unambiguously. *)
Lemma clear_message_inj (n m : nat) : clear_message n = clear_message m → n = m.
Proof.
  unfold clear_message. intros Heq.
  apply (inj (String.app "Cleared ")) in Heq.
  apply string_app_inv_tail in Heq.
  by apply (inj pretty) in Heq.
Qed.

Lemma envelope_message (success message : value) :
  Js.get "message" {[ "success" := success; "message" := message ]} = message.
Proof. reflexivity. Qed.

Lemma VStr_inj (s t : string) : VStr s = VStr t → s = t.
Proof. by intros [= ->]. Qed.

Section ClearAndRegister.

Context {W : Type} `{!World W}.

(** C8.  [DELETE /attendance/clear] always leaves the ledger empty,
    answers 200 with [success: true] and a message that spells out how
    many records the ledger held, and issues no store call. *)
Theorem clear_empties_ledger (l : ledger) (w : W) :
  let r := run delete_attendance_clear l w in
  records_after r = [] ∧
  length (records_after r) = 0 ∧
  status (returned r) = 200 ∧
  Js.get "success" (json (returned r)) = VBool true ∧
  Js.get "message" (json (returned r))
    = VStr ("Cleared " +:+ pretty (length l)
            +:+ " local records (Firebase data unchanged)") ∧
  (∀ l' : ledger,
     Js.get "message" (json (returned (run delete_attendance_clear l' w)))
     = Js.get "message" (json (returned r)) →
     length l' = length l) ∧
  trace r = [] ∧
  world_after r = w.
Proof.
  cbv zeta. unfold delete_attendance_clear. run_step.
  split_and!; try done.
  intros l' Hmsg. cbn [json] in Hmsg. rewrite !envelope_message in Hmsg.
  apply VStr_inj in Hmsg. by apply clear_message_inj.
Qed.

(** C9, as the code has it.  [POST /students/register] answers 400 and
    issues no store call unless [cardId] and [name] are both present and
    truthy: an empty string is turned away like a missing one.  Otherwise
    it issues exactly one [add] to [students], whose document carries
    [cardId], [name], the server timestamp, and [class] and [rollNumber]
    as given, ['N/A'] standing in for a missing one; it answers 500 when
    that [add] throws and 201 with the new id when it resolves. *)
Theorem registration_validates_then_writes
    (body : object) (l : ledger) (w : W) :
  let r := run (post_students_register body) l w in
  let accepted :=
    match body !! "cardId", body !! "name" with
    | Some cardId, Some name => Js.truthy cardId && Js.truthy name
    | _, _ => false
    end in
  if accepted then
    ∃ (document : object) (saved : outcome string),
      trace r = [EvAdd "students" document saved] ∧
      document !! "cardId" = body !! "cardId" ∧
      document !! "name" = body !! "name" ∧
      document !! "class"
        = Some match body !! "studentClass" with
               | Some c => Js.or c (VStr "N/A")
               | None => VStr "N/A"
               end ∧
      document !! "rollNumber"
        = Some match body !! "rollNumber" with
               | Some n => Js.or n (VStr "N/A")
               | None => VStr "N/A"
               end ∧
      document !! "registeredAt" = Some VServerTimestamp ∧
      match saved with
      | Rejected _ =>
          status (returned r) = 500 ∧
          Js.get "success" (json (returned r)) = VBool false
      | Resolved docRef_id =>
          status (returned r) = 201 ∧
          Js.get "success" (json (returned r)) = VBool true ∧
          Js.member (response_data (returned r)) "id" = VStr docRef_id
      end
  else
    status (returned r) = 400 ∧
    Js.get "success" (json (returned r)) = VBool false ∧
    Js.get "message" (json (returned r))
      = VStr "cardId and name are required" ∧
    trace r = [] ∧
    world_after r = w.
Proof.
  cbv zeta. unfold post_students_register, Js.get.
  destruct (body !! "cardId") as [cardId|]; cbn [from_option id];
    [|run_step; by split_and!].
  destruct (body !! "name") as [name|]; cbn [from_option id];
    [|rewrite orb_true_r; run_step; by split_and!].
  destruct (Js.truthy cardId); cbn [andb negb orb];
    [|run_step; by split_and!].
  destruct (Js.truthy name); cbn [andb negb orb];
    [|run_step; by split_and!].
  run_step. destruct (store_add _ _ w) as [[docRef_id|e] w']; run_step.
  - eexists _, (Resolved docRef_id). split; [done|].
    split_and!; try done.
    + by destruct (body !! "studentClass").
    + by destruct (body !! "rollNumber").
  - eexists _, (Rejected e). split; [done|].
    split_and!; try done.
    + by destruct (body !! "studentClass").
    + by destruct (body !! "rollNumber").
Qed.

End ClearAndRegister.

Example clear_reports_three :
  let r := run delete_attendance_clear [VNull; VNull; VNull] school in
  records_after r = [] ∧
  Js.get "message" (json (returned r))
    = VStr "Cleared 3 local records (Firebase data unchanged)".
Proof. by vm_compute. Qed.

(** C9, as the spec words it, fails: a body in which [cardId] and [name]
    are both present is still rejected, with nothing written, when
    [cardId] is the empty string. *)
Lemma registration_rejects_empty_cardId :
  let body : object := {[ "cardId" := VStr ""; "name" := VStr "Bob" ]} in
  let r := run (post_students_register body) [] school in
  is_Some (body !! "cardId") ∧
  is_Some (body !! "name") ∧
  status (returned r) = 400 ∧
  trace r = [] ∧
  world_after r = school.
Proof. cbv zeta. split_and!; [by eexists|by eexists|by vm_compute..]. Qed.

Example register_without_name :
  let r := run (post_students_register {[ "cardId" := VStr "CARD9" ]}) [] school in
  status (returned r) = 400 ∧ trace r = [].
Proof. by vm_compute. Qed.

Example register_then_resolve :
  let r := serve [POST_students_register
                    {[ "cardId" := VStr "CARD2"; "name" := VStr "Bob" ]};
                  POST_attendance {[ "cardId" := VStr "CARD2" ]}] [] school in
  (λ rs, Js.member (Js.member (response_data rs.2) "student") "name")
    <$> returned r
  = [VUndefined; VStr "Bob"].
Proof. by vm_compute. Qed.

Example register_during_outage :
  let r := run (post_students_register
                  {[ "cardId" := VStr "CARD2"; "name" := VStr "Bob" ]})
               [] blackout in
  status (returned r) = 500.
Proof. by vm_compute. Qed.

(** * Further properties of the routes *)

(** ** The envelope and the listings *)

Ltac uphold_step :=
  cbn [upholds bind mbind prog_bind mret prog_ret getStudentDetails
       saveToFirebase now_iso read_records write_records push_record].

Section Envelope.

Context {W : Type} `{!World W}.

(** X1.  Whatever the route, the ledger and the world, the response to a
    plain request (any request but an ingestion whose [cardId] is an
    object or an array) is in the envelope: the status is one of 200,
    201, 400, 500, [success] is the boolean that goes with it, and a
    failure names its reason. *)
Theorem every_route_answers_in_envelope (rq : request) (l : ledger) (w : W) :
  plain rq →
  envelope (returned (run (handler rq) l w)).
Proof.
  intros _. unfold envelope.
  destruct rq as [body| | | |body| | |]; cbn [handler].
  - destruct (Js.truthy (Js.get "cardId" body)) eqn:Hc.
    + destruct (post_attendance_accepted body l w Hc)
        as (ts & ra & lookup & saved & w' & Hrun).
      cbv zeta in Hrun. rewrite Hrun. left. by split; [right|].
    + rewrite (post_attendance_rejected body Hc). right.
      split; [by left|]. split; [done|]. by eexists.
  - unfold get_attendance. run_step.
    destruct (store_get _ _) as [[snap|e] w']; run_step;
      left; by split; [left|].
  - unfold get_attendance_latest. run_step.
    destruct (store_get _ _) as [[snap|e] w']; run_step;
      left; by split; [left|].
  - unfold get_attendance_today. run_step.
    destruct (store_get _ _) as [[snap|e] w']; run_step.
    + left. by split; [left|].
    + right. split; [by right|]. split; [done|]. by eexists.
  - unfold post_students_register.
    destruct (negb _ || negb _); run_step.
    + right. split; [by left|]. split; [done|]. by eexists.
    + destruct (store_add _ _ _) as [[id|e] w']; run_step.
      * left. by split; [right|].
      * right. split; [by right|]. split; [done|]. by eexists.
  - unfold get_students. run_step.
    destruct (store_get _ _) as [[snap|e] w']; run_step.
    + left. by split; [left|].
    + right. split; [by right|]. split; [done|]. by eexists.
  - left. by split; [left|].
  - unfold get_test. run_step. left. by split; [left|].
Qed.

(** X2.  The four listing routes keep [count] and [data] together: a response
    that carries [data] carries an array and its exact length, and a
    response without [data] is a 500.  The two routes with a fallback
    never take the second form. *)
Theorem listings_count_their_data (l : ledger) (w : W) :
  counted (returned (run get_attendance l w)) ∧
  counted (returned (run get_attendance_latest l w)) ∧
  counted (returned (run get_attendance_today l w)) ∧
  counted (returned (run get_students l w)) ∧
  status (returned (run get_attendance l w)) = 200 ∧
  status (returned (run get_attendance_latest l w)) = 200.
Proof.
  unfold counted, get_attendance, get_attendance_latest,
    get_attendance_today, get_students. run_step.
  destruct (store_get (Query "attendance" [_; Limit 100]) w) as [o1 w1].
  destruct (store_get (Query "attendance" [_; Limit 10]) w) as [o2 w2].
  destruct (clock_midnight w) as [today w0]. run_step.
  destruct (store_get (Query "attendance" [Where _ _ _; _]) w0) as [o3 w3].
  destruct (store_get (Query "students" _) w) as [o4 w4].
  run_step.
  split_and!; [by destruct o1|by destruct o2|by destruct o3|by destruct o4
              |by destruct o1|by destruct o2].
Qed.

(** X3.  [GET /students] issues one query, on [students] ordered by [name],
    and never looks at the ledger.  When the query throws the answer is
    a 500 and nothing else; when it resolves the answer lists every
    document of the snapshot, in snapshot order, each under its id. *)
Theorem students_listing_has_no_fallback (l : ledger) (w : W) :
  let r := run get_students l w in
  ledger_free get_students ∧
  records_after r = l ∧
  (∀ l' : ledger, returned (run get_students l' w) = returned r) ∧
  ∃ o : outcome snapshot,
    trace r = [EvGet (Query "students" [OrderBy "name" Asc]) o] ∧
    match o with
    | Rejected _ =>
        returned r
        = Response 500 {[ "success" := VBool false;
                          "message" := VStr "Failed to fetch students" ]}
    | Resolved snap =>
        returned r
        = Response 200 {[ "success" := VBool true;
                          "count" := VNum (Z.of_nat (length snap));
                          "data" := VArr (with_id <$> snap) ]}
    end.
Proof.
  assert (ledger_free get_students) as Hfree.
  { constructor. intros [snap|e]; constructor. }
  cbv zeta. split; [done|].
  destruct (ledger_free_run get_students Hfree l l w) as (Hl & _).
  split; [done|]. split.
  { intros l'. by destruct (ledger_free_run get_students Hfree l l' w)
      as (_ & ? & _). }
  unfold get_students. run_step.
  destruct (store_get _ w) as [o w']. run_step.
  exists o. destruct o as [snap|e]; run_step; [|done].
  split; [done|]. unfold count_of, snapshot_records.
  by rewrite length_fmap.
Qed.

End Envelope.

(** ** What an ingestion stores and what it sends to the store *)

(** X4.  [forEach] over a snapshot keeps every document, in order; a document
    whose data has an [id] of its own shows that one, since the data is
    spread after the document id. *)
Theorem snapshot_records_faithful (s : snapshot) :
  length (snapshot_records s) = length s ∧
  ∀ (i : nat) (d : doc),
    s !! i = Some d →
    ∃ fields : object,
      snapshot_records s !! i = Some (VObj fields) ∧
      fields !! "id" = Some (default (VStr (doc_id d)) (doc_data d !! "id")) ∧
      ∀ k : string, k ≠ "id" → fields !! k = doc_data d !! k.
Proof.
  unfold snapshot_records. split; [apply length_fmap|].
  intros i d Hi. eexists. rewrite list_lookup_fmap, Hi. cbn [fmap option_fmap option_map].
  unfold with_id, Js.spread. split; [reflexivity|]. split.
  - rewrite lookup_union. destruct (doc_data d !! "id") as [v|]; [done|].
    by rewrite lookup_singleton_eq.
  - intros k Hk. rewrite lookup_union, lookup_singleton_ne by done.
    by rewrite (right_id None _).
Qed.

Lemma snapshot_records_faithful_witness :
  [alice] !! 0 = Some alice ∧
  ∃ fields : object,
    snapshot_records [alice] !! 0 = Some (VObj fields) ∧
    fields !! "id" = Some (default (VStr (doc_id alice)) (doc_data alice !! "id")) ∧
    ∀ k : string, k ≠ "id" → fields !! k = doc_data alice !! k.
Proof.
  split; [reflexivity|].
  apply (proj2 (snapshot_records_faithful [alice]) 0 alice). reflexivity.
Defined.

Section Stored.

Context {W : Type} `{!World W}.

(** An accepted ingestion, call by call: the clock is read for the
    timestamp only when the body brings none, then the lookup, then the
    clock for [recordedAt], then the write. *)
Lemma post_attendance_accepted_at (body : object) (l : ledger) (w : W) :
  Js.truthy (Js.get "cardId" body) = true →
  let cardId := Js.get "cardId" body in
  let time := Js.get "time" body in
  let timestamp := if Js.truthy time then time else VStr (clock_iso w).1 in
  let w1 := if Js.truthy time then w else (clock_iso w).2 in
  let q := Query "students" [Where "cardId" "==" cardId] in
  let lookup := (store_get q w1).1 in
  let w2 := (store_get q w1).2 in
  let recordedAt := (clock_iso w2).1 in
  let w3 := (clock_iso w2).2 in
  let student := student_of lookup in
  let record := attendance_record l cardId timestamp recordedAt student in
  let document := Js.spread (attendance_projection cardId timestamp student)
                            {[ "createdAt" := VServerTimestamp ]} in
  let saved := (store_add "attendance" document w3).1 in
  run (post_attendance body) l w =
  Result
    (Response 201
       {[ "success" := VBool true;
          "message" := VStr "Attendance recorded successfully";
          "data" := VObj (Js.spread record
                            {[ "firebaseId" := firebaseId_of saved ]}) ]})
    (l ++ [VObj record]) (store_add "attendance" document w3).2
    [EvGet q lookup; EvAdd "attendance" document saved].
Proof.
  intros Hc. cbv zeta. unfold post_attendance. rewrite Hc. cbn [negb].
  destruct (Js.truthy (Js.get "time" body)); run_step.
  all: destruct (store_get _ _) as [[[|d ds]|e] w2]; run_step;
    cbn [student_of].
  all: by destruct (store_add _ _ _) as [[id|e'] w4].
Qed.

(** X5.  The ledger record and the document sent to [attendance] describe the
    same scan: same [cardId], same [timestamp], which is the body's
    [time] when that is truthy and the server clock at receipt
    otherwise.  [recordedAt] is what the server clock shows after the
    lookup, whatever the body says.  The document has its six properties
    and a server-side [createdAt]; the local [id] and [recordedAt] are
    not sent, and the ledger record does not learn the [firebaseId]. *)
Theorem ingestion_record_and_document_agree
    (body : object) (cardId : string) (l : ledger) (w : W) :
  Js.get "cardId" body = VStr cardId →
  cardId ≠ "" →
  let time := Js.get "time" body in
  let r := run (post_attendance body) l w in
  let w1 := if Js.truthy time then w else (clock_iso w).2 in
  let w2 := (store_get (Query "students" [Where "cardId" "==" (VStr cardId)])
                       w1).2 in
  ∃ (record document : object) (saved : outcome string),
    last (records_after r) = Some (VObj record) ∧
    last (trace r) = Some (EvAdd "attendance" document saved) ∧
    record !! "cardId" = Some (VStr cardId) ∧
    document !! "cardId" = Some (VStr cardId) ∧
    record !! "timestamp"
      = Some (if Js.truthy time then time else VStr (clock_iso w).1) ∧
    document !! "timestamp" = record !! "timestamp" ∧
    record !! "recordedAt" = Some (VStr (clock_iso w2).1) ∧
    document !! "createdAt" = Some VServerTimestamp ∧
    dom document
      = {[ "cardId"; "timestamp"; "studentId"; "studentName"; "class";
           "createdAt" ]} ∧
    dom record = record_keys.
Proof.
  intros Hs Hne.
  pose proof (string_cardId_truthy body cardId Hs Hne) as Hc.
  cbv zeta. rewrite (post_attendance_accepted_at body l w Hc), Hs.
  cbn [records_after trace]. rewrite last_snoc.
  eexists _, _, _. split; [done|]. split; [done|].
  unfold Js.spread, attendance_record, attendance_projection, record_keys.
  by split_and!.
Qed.

(** X6.  What the document says about the student, in the ingestion of a
    non-empty string [cardId].  With a match it carries the id, [name]
    and [class] of the first matching document; without one (empty
    snapshot or fault) it carries [null], ['Unknown'] and ['N/A'], while
    the ledger record names the student ['Unknown Student']. *)
Theorem document_student_fields
    (body : object) (cardId : string) (l : ledger) (w : W) :
  Js.get "cardId" body = VStr cardId →
  cardId ≠ "" →
  let r := run (post_attendance body) l w in
  ∃ (record document : object) (lookup : outcome snapshot)
    (saved : outcome string),
    last (records_after r) = Some (VObj record) ∧
    trace r = [EvGet (Query "students" [Where "cardId" "==" (VStr cardId)])
                     lookup;
               EvAdd "attendance" document saved] ∧
    match lookup with
    | Resolved (first :: _) =>
        document !! "studentId"
          = Some (default (VStr (doc_id first)) (doc_data first !! "id")) ∧
        document !! "studentName" = Some (Js.get "name" (doc_data first)) ∧
        document !! "class" = Some (Js.get "class" (doc_data first))
    | Resolved [] | Rejected _ =>
        document !! "studentId" = Some VNull ∧
        document !! "studentName" = Some (VStr "Unknown") ∧
        document !! "class" = Some (VStr "N/A") ∧
        Js.member (Js.get "student" record) "name" = VStr "Unknown Student"
    end.
Proof.
  intros Hs Hne.
  pose proof (string_cardId_truthy body cardId Hs Hne) as Hc.
  cbv zeta. rewrite (post_attendance_accepted_at body l w Hc), Hs.
  cbn [records_after trace]. rewrite last_snoc.
  eexists _, _, _, _. split; [done|]. split; [done|].
  destruct (store_get _ _).1 as [[|first rest]|e]; cbn [student_of];
    [done| |done].
  unfold Js.spread, attendance_projection.
  rewrite !lookup_union_r by done. rewrite with_id_truthy.
  split_and!.
  - rewrite lookup_insert_ne, lookup_insert_ne, lookup_insert_eq by done.
    f_equal. unfold with_id, Js.member, Js.get, Js.spread.
    rewrite lookup_union. destruct (doc_data first !! "id"); [done|].
    by rewrite lookup_singleton_eq.
  - rewrite !lookup_insert_ne, lookup_insert_eq by done.
    by rewrite with_id_member.
  - rewrite !lookup_insert_ne, lookup_singleton_eq by done.
    by rewrite with_id_member.
Qed.

End Stored.

(** ** What every ledger entry looks like, also when requests overlap *)

Lemma or_unknown_student_truthy (student : value) :
  Js.truthy (Js.or student unknown_student) = true.
Proof. unfold Js.or. by destruct (Js.truthy student) eqn:Hs. Qed.

Lemma attendance_record_shaped (l : ledger) (cardId timestamp : value)
    (recordedAt : string) (student : value) :
  Js.truthy cardId = true →
  shaped (VObj (attendance_record l cardId timestamp recordedAt student)).
Proof.
  intros Hc. eexists. split; [done|]. split; [done|]. split; [done|].
  apply or_unknown_student_truthy.
Qed.

Lemma shaped_without_firebaseId (record : value) :
  shaped record → Js.member record "firebaseId" = VUndefined.
Proof.
  intros (fields & -> & Hdom & _). unfold Js.member, Js.get.
  assert (fields !! "firebaseId" = None) as ->; [|done].
  apply not_elem_of_dom. rewrite Hdom.
  apply (bool_decide_unpack _). by vm_compute.
Qed.

Section Steady.

Context {W : Type} `{!World W}.
Variables (P : ledger → Prop) (Q : response → Prop).

Lemma run_upholds {A : Type} (Q' : A → Prop) (p : prog A) (l : ledger) (w : W) :
  P l →
  upholds P Q' p l →
  P (records_after (run p l w)) ∧ Q' (returned (run p l w)).
Proof.
  revert l w. induction p as [a|q k IH|c d k IH|k IH|k IH|k IH|l' k IH];
    intros l w Hl Hp; run_step; cbn [upholds] in Hp.
  - done.
  - apply IH; auto.
  - apply IH; auto.
  - apply IH; auto.
  - apply IH; auto.
  - apply IH; auto.
  - destruct Hp as [Hl' Hk]. by apply IH.
Qed.

Lemma advance_upholds {A : Type} (Q' : A → Prop) (p : prog A)
    (l : ledger) (w : W) :
  P l →
  upholds P Q' p l →
  P (advance p l w).1.2 ∧
  upholds P Q' (advance p l w).1.1 (advance p l w).1.2.
Proof.
  revert l w. induction p as [a|q k IH|c d k IH|k IH|k IH|k IH|l' k IH];
    intros l w Hl Hp; cbn [advance fst snd]; [done|done|done|..].
  - apply IH; [done|]. apply Hp.
  - apply IH; [done|]. apply Hp.
  - apply IH; [done|]. apply Hp.
  - destruct Hp as [Hl' Hk]. by apply IH.
Qed.

Lemma park_steady (plw : prog response * ledger * W)
    (pending : list (prog response)) (sent : list response) :
  match plw.1.1 with
  | Ret _ | Get _ _ | Add _ _ _ => True
  | _ => False
  end →
  P plw.1.2 →
  upholds P Q plw.1.1 plw.1.2 →
  Forall Q sent →
  Forall (λ p, ∀ l, P l → upholds P Q p l) pending →
  steady P Q (park plw pending sent).
Proof.
  intros Hhead Hl Hp Hsent Hpending. unfold park, steady.
  destruct plw.1.1 as [a|q k|c d k|k|k|k|l' k];
    cbn [srv_records srv_pending srv_sent]; try done.
  - split; [done|]. split; [|done].
    apply Forall_app. split; [done|]. by apply Forall_singleton.
  - split; [done|]. split; [done|].
    apply Forall_app. split; [done|]. apply Forall_singleton.
    intros l1 _. exact Hp.
  - split; [done|]. split; [done|].
    apply Forall_app. split; [done|]. apply Forall_singleton.
    intros l1 _. exact Hp.
Qed.

Hypothesis handlers_uphold : ∀ rq l, P l → upholds P Q (handler rq) l.

Lemma step_steady (s : server W) (a : action) :
  steady P Q s → steady P Q (step s a).
Proof.
  intros (Hl & Hsent & Hpending). destruct a as [rq|i]; cbn [step].
  - apply park_steady; [apply advance_waits|..|done|done];
      apply (advance_upholds Q); auto.
  - destruct (srv_pending s !! i) as [p|] eqn:Hi; [|done].
    pose proof (Forall_lookup_1 _ _ _ _ Hpending Hi (srv_records s) Hl) as Hp.
    assert (Forall (λ p, ∀ l, P l → upholds P Q p l)
              (delete i (srv_pending s))) as Hrest.
    { by apply Forall_delete. }
    destruct p as [a|q k|c d k|k|k|k|l' k]; try done.
    + apply park_steady; [apply advance_waits|..|done|done];
        apply (advance_upholds Q); auto.
    + apply park_steady; [apply advance_waits|..|done|done];
        apply (advance_upholds Q); auto.
Qed.

Lemma interleave_steady (schedule : list action) (s : server W) :
  steady P Q s → steady P Q (interleave schedule s).
Proof.
  revert s. induction schedule as [|a schedule IH]; intros s Hs; [done|].
  apply IH. by apply step_steady.
Qed.

Lemma serve_upholds (rqs : list request) (l : ledger) (w : W) :
  P l →
  P (records_after (serve rqs l w)) ∧
  Forall (λ rr, Q rr.2) (returned (serve rqs l w)).
Proof.
  revert l w. induction rqs as [|rq rqs IH]; intros l w Hl;
    cbn [serve records_after returned]; [done|].
  destruct (run_upholds Q (handler rq) l w Hl) as [Hl' Hq]; [auto|].
  destruct (IH _ (world_after (run (handler rq) l w)) Hl') as [? ?].
  split; [done|]. by constructor.
Qed.

End Steady.

Section Shape.

Context {W : Type} `{!World W}.

(** Every handler stores only shaped ledgers and answers only in the
    envelope, at whatever point of another handler's wait it resumes. *)
Lemma handler_upholds_shape (rq : request) (l : ledger) :
  Forall shaped l → upholds (Forall shaped) envelope (handler rq) l.
Proof.
  intros Hl. destruct rq as [body| | | |body| | |]; cbn [handler].
  - unfold post_attendance.
    destruct (Js.truthy (Js.get "cardId" body)) eqn:Hc; cbn [negb].
    2: { cbn [upholds]. right. split; [by left|]. split; [done|]. by eexists. }
    destruct (Js.truthy (Js.get "time" body)); uphold_step;
      [|intros s]; intros lookup l1 Hl1.
    all: destruct lookup as [[|d ds]|e]; uphold_step.
    all: intros ra; split;
      [apply Forall_app; split; [done|];
       apply Forall_singleton; by apply attendance_record_shaped|].
    all: intros [id|e'] l2 Hl2; left; by split; [right|].
  - unfold get_attendance. uphold_step.
    intros [snap|e] l1 Hl1; left; by split; [left|].
  - unfold get_attendance_latest. uphold_step.
    intros [snap|e] l1 Hl1; left; by split; [left|].
  - unfold get_attendance_today. uphold_step.
    intros t [snap|e] l1 Hl1; [left; by split; [left|]|].
    right. split; [by right|]. split; [done|]. by eexists.
  - unfold post_students_register. destruct (negb _ || negb _).
    { cbn [upholds]. right. split; [by left|]. split; [done|]. by eexists. }
    uphold_step. intros [id|e] l1 Hl1; [left; by split; [right|]|].
    right. split; [by right|]. split; [done|]. by eexists.
  - unfold get_students. uphold_step.
    intros [snap|e] l1 Hl1; [left; by split; [left|]|].
    right. split; [by right|]. split; [done|]. by eexists.
  - unfold delete_attendance_clear. uphold_step.
    split; [constructor|]. left. by split; [left|].
  - unfold get_test. uphold_step. intros s. left. by split; [left|].
Qed.

(** X7.  From an empty ledger, whatever is served and in whatever order the
    handlers overlap: every ledger entry is an object with exactly the
    properties [id], [cardId], [timestamp], [recordedAt], [student], a
    truthy [cardId] and a truthy [student]; in particular no entry ever
    carries the [firebaseId] that its response reported.  Every response
    sent is in the envelope. *)
Theorem ledger_entries_keep_their_shape
    (rqs : list request) (schedule : list action) (w : W) :
  (let r := serve rqs [] w in
   Forall shaped (records_after r) ∧
   Forall (λ record, Js.member record "firebaseId" = VUndefined)
          (records_after r)) ∧
  (let s := interleave schedule (Server [] w [] []) in
   Forall shaped (srv_records s) ∧
   Forall (λ record, Js.member record "firebaseId" = VUndefined)
          (srv_records s) ∧
   Forall envelope (srv_sent s)).
Proof.
  cbv zeta. split.
  - destruct (serve_upholds (Forall shaped) envelope
                handler_upholds_shape rqs [] w) as [Hs _]; [constructor|].
    split; [done|]. eapply Forall_impl; [exact Hs|].
    apply shaped_without_firebaseId.
  - destruct (interleave_steady (Forall shaped) envelope
                handler_upholds_shape schedule (Server [] w [] []))
      as (Hs & Hsent & _).
    { split; [constructor|]. split; constructor. }
    split; [done|]. split; [|done]. eapply Forall_impl; [exact Hs|].
    apply shaped_without_firebaseId.
Qed.

End Shape.

Example ledger_record_lacks_firebaseId :
  let r := run (post_attendance {[ "cardId" := VStr "CARD1" ]}) [] school in
  Js.member (response_data (returned r)) "firebaseId" = VStr "doc1" ∧
  (λ record, Js.member record "firebaseId") <$> records_after r
  = [VUndefined].
Proof. by vm_compute. Qed.

(** ** How the routes compose *)

Lemma slice_last_snoc {A : Type} (n : nat) (a : list A) (x : A) :
  slice_last (S n) (a ++ [x]) = slice_last n a ++ [x].
Proof.
  unfold slice_last. rewrite length_app. cbn [length].
  replace (length a + 1 - S n) with (length a - n) by lia.
  rewrite drop_app_le by lia. done.
Qed.

Section Composition.

Context {W : Type} `{!World W}.

(** X8.  As long as no clear is served the ledger only grows at its end, and
    it grows by exactly the records whose ids the accepted ingestions
    were told, in that order; no other route adds or removes an entry. *)
Theorem ledger_grows_by_accepted_ingestions
    (rqs : list request) (l : ledger) (w : W) :
  Forall (λ rq, rq ≠ DELETE_attendance_clear) rqs →
  let r := serve rqs l w in
  ∃ new : ledger,
    records_after r = l ++ new ∧
    localId <$> new = issued_localIds (returned r).
Proof.
  intros Hrqs. revert l w.
  induction Hrqs as [|rq rqs Hrq _ IH]; intros l w; cbv zeta.
  { exists []. by rewrite (right_id [] _). }
  cbn [serve returned records_after].
  pose proof (handler_ledger rq l w) as Hh. cbv zeta in Hh.
  set (r := run (handler rq) l w) in *.
  destruct (IH (records_after r) (world_after r)) as (new & Hnew & Hids).
  destruct rq as [body| | | |body| | |]; try done;
    cbn [issued_localIds];
    try (rewrite Hh in Hnew, Hids |- *; exists new; by split).
  destruct (Js.truthy _).
  - destruct Hh as (Hst & record & Hrec & Hid & Hid').
    rewrite Hrec in Hnew, Hids |- *. exists (record :: new).
    rewrite Hst, decide_True by done. split.
    + by rewrite Hnew, <-(assoc_L (++)).
    + cbn [fmap list_fmap]. by rewrite Hid, Hid', <-Hids.
  - destruct Hh as [Hst Hrec]. rewrite Hrec in Hnew, Hids |- *.
    rewrite Hst, decide_False by done. exists new. by split.
Qed.

(** X9.  What is ingested is what the fallback reads show.  After the
    ingestion of a non-empty string [cardId], a [GET /attendance] whose query throws lists the earlier
    ledger followed by the new record, and a [GET /attendance/latest]
    whose query throws lists the new record first; the record listed is
    the one the ingestion returned, less its [firebaseId]. *)
Theorem ingested_record_is_read_back
    (body : object) (cardId : string) (l : ledger) (w : W) :
  Js.get "cardId" body = VStr cardId →
  cardId ≠ "" →
  let r := serve [POST_attendance body; GET_attendance;
                  GET_attendance_latest] l w in
  ∃ (posted all latest : response) (returned_fields : object)
    (e1 e2 : event) (o1 o2 : outcome snapshot),
    returned r = [(POST_attendance body, posted); (GET_attendance, all);
                  (GET_attendance_latest, latest)] ∧
    trace r = [e1; e2;
               EvGet (Query "attendance"
                        [OrderBy "createdAt" Desc; Limit 100]) o1;
               EvGet (Query "attendance"
                        [OrderBy "createdAt" Desc; Limit 10]) o2] ∧
    response_data posted = VObj returned_fields ∧
    match o1 with
    | Rejected _ =>
        response_data all
        = VArr (l ++ [VObj (delete "firebaseId" returned_fields)])
    | Resolved snap => response_data all = VArr (snapshot_records snap)
    end ∧
    match o2 with
    | Rejected _ =>
        response_data latest
        = VArr (VObj (delete "firebaseId" returned_fields)
                  :: reverse (slice_last 9 l))
    | Resolved snap => response_data latest = VArr (snapshot_records snap)
    end.
Proof.
  intros Hs Hne.
  pose proof (string_cardId_truthy body cardId Hs Hne) as Hc.
  cbv zeta. cbn [serve handler].
  rewrite (post_attendance_accepted_at body l w Hc).
  cbn [returned records_after world_after trace app].
  set (record := attendance_record _ _ _ _ _).
  set (saved := (store_add _ _ _).1).
  set (w4 := (store_add _ _ _).2).
  assert (delete "firebaseId"
            (Js.spread record {[ "firebaseId" := firebaseId_of saved ]})
          = record) as Hdel.
  { unfold Js.spread. rewrite <-insert_union_singleton_l.
    rewrite delete_insert_eq. by apply delete_id. }
  unfold get_attendance, get_attendance_latest. run_step.
  destruct (store_get (Query "attendance" [_; Limit 100]) w4) as [o1 w5].
  run_step.
  assert (∀ o, world_after (run (match o with
      | Resolved snap =>
          Ret (Response 200
                 {[ "success" := VBool true;
                    "count" := count_of (snapshot_records snap);
                    "data" := VArr (snapshot_records snap);
                    "source" := VStr "firebase" ]})
      | Rejected _ =>
          ReadRecords (λ attendanceRecords,
            Ret (Response 200
                   {[ "success" := VBool true;
                      "count" := count_of attendanceRecords;
                      "data" := VArr attendanceRecords;
                      "source" := VStr "memory" ]}))
      end) (l ++ [VObj record]) w5) = w5
    ∧ records_after (run (match o with
      | Resolved snap =>
          Ret (Response 200
                 {[ "success" := VBool true;
                    "count" := count_of (snapshot_records snap);
                    "data" := VArr (snapshot_records snap);
                    "source" := VStr "firebase" ]})
      | Rejected _ =>
          ReadRecords (λ attendanceRecords,
            Ret (Response 200
                   {[ "success" := VBool true;
                      "count" := count_of attendanceRecords;
                      "data" := VArr attendanceRecords;
                      "source" := VStr "memory" ]}))
      end) (l ++ [VObj record]) w5) = l ++ [VObj record]) as Hsame.
  { by intros [snap|e]. }
  destruct (Hsame o1) as [-> ->]. clear Hsame.
  destruct (store_get (Query "attendance" [_; Limit 10]) w5) as [o2 w6].
  run_step.
  eexists _, _, _, _, _, _, o1, o2.
  split; [reflexivity|]. split.
  { by destruct o1, o2. }
  split; [reflexivity|]. rewrite Hdel. split.
  - by destruct o1.
  - destruct o2 as [snap|e]; run_step; [done|].
    unfold response_data, Js.get; cbn [json].
    rewrite lookup_insert_ne, lookup_insert_ne, lookup_singleton_eq by done.
    cbn [default from_option id].
    by rewrite slice_last_snoc, reverse_snoc.
Qed.

(** X10.  A clear followed by the two fallback reads: when their queries
    throw, both list nothing. *)
Theorem fallback_after_clear_is_empty (l : ledger) (w : W) :
  let r := serve [DELETE_attendance_clear; GET_attendance;
                  GET_attendance_latest] l w in
  ∃ (cleared all latest : response) (o1 o2 : outcome snapshot),
    returned r = [(DELETE_attendance_clear, cleared); (GET_attendance, all);
                  (GET_attendance_latest, latest)] ∧
    trace r = [EvGet (Query "attendance"
                        [OrderBy "createdAt" Desc; Limit 100]) o1;
               EvGet (Query "attendance"
                        [OrderBy "createdAt" Desc; Limit 10]) o2] ∧
    records_after r = [] ∧
    match o1 with
    | Rejected _ =>
        json all !! "data" = Some (VArr []) ∧
        json all !! "count" = Some (VNum 0)
    | Resolved snap => response_data all = VArr (snapshot_records snap)
    end ∧
    match o2 with
    | Rejected _ =>
        json latest !! "data" = Some (VArr []) ∧
        json latest !! "count" = Some (VNum 0)
    | Resolved snap => response_data latest = VArr (snapshot_records snap)
    end.
Proof.
  cbv zeta. cbn [serve handler].
  unfold delete_attendance_clear, get_attendance, get_attendance_latest.
  run_step.
  destruct (store_get (Query "attendance" [_; Limit 100]) w) as [o1 w1].
  run_step.
  destruct o1 as [snap1|e1]; run_step.
  all: destruct (store_get (Query "attendance" [_; Limit 10]) w1) as [o2 w2];
    run_step.
  all: destruct o2 as [snap2|e2]; run_step.
  all: by eexists _, _, _, _, _.
Qed.

(** X11.  The document a registration writes is the one the lookup of an
    ingestion asks for: the lookup goes to [students] with the single
    filter [cardId == <the scanned id>], and the registration of that
    id writes to [students] a document holding it under [cardId]. *)
Theorem registered_card_meets_lookup
    (registration scan : object) (cardId : string) (l l' : ledger)
    (w w' : W) :
  Js.get "cardId" registration = VStr cardId →
  cardId ≠ "" →
  Js.truthy (Js.get "name" registration) = true →
  Js.get "cardId" scan = VStr cardId →
  ∃ (document : object) (saved : outcome string) (lookup : outcome snapshot),
    trace (run (post_students_register registration) l w)
    = [EvAdd "students" document saved] ∧
    head (trace (run (post_attendance scan) l' w'))
    = Some (EvGet (Query "students" [Where "cardId" "==" (VStr cardId)])
                  lookup) ∧
    document !! "cardId" = Some (VStr cardId) ∧
    Forall (satisfies document) [Where "cardId" "==" (VStr cardId)].
Proof.
  intros Hreg Hne Hn Hscan.
  pose proof (string_cardId_truthy registration cardId Hreg Hne) as Hc.
  rewrite (post_attendance_accepted_at scan l' w')
    by by apply (string_cardId_truthy scan cardId).
  unfold post_students_register. rewrite Hc, Hn. cbn [negb orb].
  run_step. destruct (store_add _ _ w) as [[id|e] w1]; run_step.
  all: eexists _, _, _; split; [done|]; rewrite Hscan, Hreg;
    split; [done|]; split; [done|].
  all: by apply Forall_singleton.
Qed.

(** X12.  Which store calls a route may issue.  A route issues at most two
    calls.  A write to [attendance] comes only from [POST /attendance],
    a write to [students] only from [POST /students/register]; the
    listing routes query their own collection and never write; the
    clear and the test route issue no call at all. *)
Theorem store_calls_by_route (rq : request) (l : ledger) (w : W) :
  let t := trace (run (handler rq) l w) in
  (length t ≤ 2)%nat ∧
  Forall (λ e,
    match e, rq with
    | EvAdd c _ _, POST_attendance _ => c = "attendance"
    | EvAdd c _ _, POST_students_register _ => c = "students"
    | EvGet q _, (POST_attendance _ | GET_students) =>
        q_collection q = "students"
    | EvGet q _, (GET_attendance | GET_attendance_latest
                  | GET_attendance_today) =>
        q_collection q = "attendance"
    | _, _ => False
    end) t.
Proof.
  cbv zeta. destruct rq as [body| | | |body| | |]; cbn [handler].
  - destruct (Js.truthy (Js.get "cardId" body)) eqn:Hc.
    + rewrite (post_attendance_accepted_at body l w Hc). cbn [trace length].
      split; [lia|]. by repeat constructor.
    + rewrite (post_attendance_rejected body Hc). cbn. split; [lia|done].
  - unfold get_attendance. run_step.
    destruct (store_get _ _) as [[snap|e] w']; run_step;
      (split; [cbn; lia|by repeat constructor]).
  - unfold get_attendance_latest. run_step.
    destruct (store_get _ _) as [[snap|e] w']; run_step;
      (split; [cbn; lia|by repeat constructor]).
  - unfold get_attendance_today. run_step.
    destruct (store_get _ _) as [[snap|e] w']; run_step;
      (split; [cbn; lia|by repeat constructor]).
  - unfold post_students_register.
    destruct (negb _ || negb _); run_step; [cbn; split; [lia|done]|].
    destruct (store_add _ _ _) as [[id|e] w']; run_step;
      (split; [cbn; lia|by repeat constructor]).
  - unfold get_students. run_step.
    destruct (store_get _ _) as [[snap|e] w']; run_step;
      (split; [cbn; lia|by repeat constructor]).
  - cbn. split; [lia|done].
  - cbn. split; [lia|done].
Qed.

End Composition.

(** ** The properties above at concrete requests *)

Lemma every_route_answers_in_envelope_witness :
  plain (POST_attendance {[ "cardId" := VStr "CARD1" ]}) ∧
  envelope
    (returned (run (handler (POST_attendance {[ "cardId" := VStr "CARD1" ]}))
                   [] blackout)).
Proof.
  split; [reflexivity|].
  apply (every_route_answers_in_envelope
           (POST_attendance {[ "cardId" := VStr "CARD1" ]}) [] blackout).
  reflexivity.
Defined.

Lemma ingestion_record_and_document_agree_witness :
  Js.get "cardId" {[ "cardId" := VStr "CARD1" ]} = VStr "CARD1" ∧
  "CARD1" ≠ "" ∧
  let body : object := {[ "cardId" := VStr "CARD1" ]} in
  let time := Js.get "time" body in
  let r := run (post_attendance body) [] school in
  let w1 := if Js.truthy time then school else (clock_iso school).2 in
  let w2 := (store_get (Query "students" [Where "cardId" "==" (VStr "CARD1")])
                       w1).2 in
  ∃ (record document : object) (saved : outcome string),
    last (records_after r) = Some (VObj record) ∧
    last (trace r) = Some (EvAdd "attendance" document saved) ∧
    record !! "cardId" = Some (VStr "CARD1") ∧
    document !! "cardId" = Some (VStr "CARD1") ∧
    record !! "timestamp"
      = Some (if Js.truthy time then time else VStr (clock_iso school).1) ∧
    document !! "timestamp" = record !! "timestamp" ∧
    record !! "recordedAt" = Some (VStr (clock_iso w2).1) ∧
    document !! "createdAt" = Some VServerTimestamp ∧
    dom document
      = {[ "cardId"; "timestamp"; "studentId"; "studentName"; "class";
           "createdAt" ]} ∧
    dom record = record_keys.
Proof.
  split; [reflexivity|]. split; [discriminate|].
  apply (ingestion_record_and_document_agree
           {[ "cardId" := VStr "CARD1" ]} "CARD1" [] school);
    [reflexivity | discriminate].
Defined.

Lemma document_student_fields_witness :
  Js.get "cardId" {[ "cardId" := VStr "CARDX" ]} = VStr "CARDX" ∧
  "CARDX" ≠ "" ∧
  let r := run (post_attendance {[ "cardId" := VStr "CARDX" ]}) [] school in
  ∃ (record document : object) (lookup : outcome snapshot)
    (saved : outcome string),
    last (records_after r) = Some (VObj record) ∧
    trace r = [EvGet (Query "students" [Where "cardId" "==" (VStr "CARDX")])
                     lookup;
               EvAdd "attendance" document saved] ∧
    match lookup with
    | Resolved (first :: _) =>
        document !! "studentId"
          = Some (default (VStr (doc_id first)) (doc_data first !! "id")) ∧
        document !! "studentName" = Some (Js.get "name" (doc_data first)) ∧
        document !! "class" = Some (Js.get "class" (doc_data first))
    | Resolved [] | Rejected _ =>
        document !! "studentId" = Some VNull ∧
        document !! "studentName" = Some (VStr "Unknown") ∧
        document !! "class" = Some (VStr "N/A") ∧
        Js.member (Js.get "student" record) "name" = VStr "Unknown Student"
    end.
Proof.
  split; [reflexivity|]. split; [discriminate|].
  apply (document_student_fields
           {[ "cardId" := VStr "CARDX" ]} "CARDX" [] school);
    [reflexivity | discriminate].
Defined.

Lemma ledger_grows_by_accepted_ingestions_witness :
  Forall (λ rq, rq ≠ DELETE_attendance_clear)
         [POST_attendance {[ "cardId" := VStr "CARD1" ]};
          GET_attendance_latest;
          POST_attendance ∅;
          POST_attendance {[ "cardId" := VStr "CARD2" ]}] ∧
  let r := serve [POST_attendance {[ "cardId" := VStr "CARD1" ]};
                  GET_attendance_latest;
                  POST_attendance ∅;
                  POST_attendance {[ "cardId" := VStr "CARD2" ]}]
                 [VNull] blackout in
  ∃ new : ledger,
    records_after r = [VNull] ++ new ∧
    localId <$> new = issued_localIds (returned r).
Proof.
  assert (Forall (λ rq, rq ≠ DELETE_attendance_clear)
            [POST_attendance {[ "cardId" := VStr "CARD1" ]};
             GET_attendance_latest;
             POST_attendance ∅;
             POST_attendance {[ "cardId" := VStr "CARD2" ]}]) as Hrqs.
  { repeat constructor; discriminate. }
  split; [exact Hrqs|].
  exact (ledger_grows_by_accepted_ingestions _ [VNull] blackout Hrqs).
Defined.

Lemma ingested_record_is_read_back_witness :
  Js.get "cardId" {[ "cardId" := VStr "CARD1" ]} = VStr "CARD1" ∧
  "CARD1" ≠ "" ∧
  let body : object := {[ "cardId" := VStr "CARD1" ]} in
  let r := serve [POST_attendance body; GET_attendance;
                  GET_attendance_latest] [VNull] blackout in
  ∃ (posted all latest : response) (returned_fields : object)
    (e1 e2 : event) (o1 o2 : outcome snapshot),
    returned r = [(POST_attendance body, posted); (GET_attendance, all);
                  (GET_attendance_latest, latest)] ∧
    trace r = [e1; e2;
               EvGet (Query "attendance"
                        [OrderBy "createdAt" Desc; Limit 100]) o1;
               EvGet (Query "attendance"
                        [OrderBy "createdAt" Desc; Limit 10]) o2] ∧
    response_data posted = VObj returned_fields ∧
    match o1 with
    | Rejected _ =>
        response_data all
        = VArr ([VNull] ++ [VObj (delete "firebaseId" returned_fields)])
    | Resolved snap => response_data all = VArr (snapshot_records snap)
    end ∧
    match o2 with
    | Rejected _ =>
        response_data latest
        = VArr (VObj (delete "firebaseId" returned_fields)
                  :: reverse (slice_last 9 [VNull]))
    | Resolved snap => response_data latest = VArr (snapshot_records snap)
    end.
Proof.
  split; [reflexivity|]. split; [discriminate|].
  apply (ingested_record_is_read_back
           {[ "cardId" := VStr "CARD1" ]} "CARD1" [VNull] blackout);
    [reflexivity | discriminate].
Defined.

Lemma registered_card_meets_lookup_witness :
  let registration : object :=
    {[ "cardId" := VStr "CARD2"; "name" := VStr "Bob" ]} in
  let scan : object := {[ "cardId" := VStr "CARD2" ]} in
  Js.get "cardId" registration = VStr "CARD2" ∧
  "CARD2" ≠ "" ∧
  Js.truthy (Js.get "name" registration) = true ∧
  Js.get "cardId" scan = VStr "CARD2" ∧
  ∃ (document : object) (saved : outcome string) (lookup : outcome snapshot),
    trace (run (post_students_register registration) [] school)
    = [EvAdd "students" document saved] ∧
    head (trace (run (post_attendance scan) [] school))
    = Some (EvGet (Query "students" [Where "cardId" "==" (VStr "CARD2")])
                  lookup) ∧
    document !! "cardId" = Some (VStr "CARD2") ∧
    Forall (satisfies document) [Where "cardId" "==" (VStr "CARD2")].
Proof.
  cbv zeta. split; [reflexivity|]. split; [discriminate|].
  split; [reflexivity|]. split; [reflexivity|].
  apply (registered_card_meets_lookup
           {[ "cardId" := VStr "CARD2"; "name" := VStr "Bob" ]}
           {[ "cardId" := VStr "CARD2" ]} "CARD2" [] [] school school);
    [reflexivity | discriminate | reflexivity | reflexivity].
Defined.

Example data_id_overrides_document_id :
  Js.member (with_id (Doc "stu9" {[ "id" := VNum 42; "name" := VStr "Eve" ]}))
            "id"
  = VNum 42.
Proof. by vm_compute. Qed.

Example ledger_and_store_name_the_unknown_differently :
  let r := run (post_attendance {[ "cardId" := VStr "CARDX" ]}) [] school in
  (λ d, Js.get "studentName" (doc_data d)) <$> fx_attendance (world_after r)
  = [VStr "Unknown"] ∧
  (λ record, Js.member (Js.member record "student") "name")
    <$> records_after r
  = [VStr "Unknown Student"].
Proof. by vm_compute. Qed.
